(** * Technology-cost preprocessing of the capacity-expansion notebook

    A shallow embedding of the code cells of [02-pypsa-investment.ipynb]
    (and of the generator loop of [01-pypsa-dispatch.ipynb]) that turn the
    raw technology-cost table into marginal and annualised capital costs.

    Numbers.  The notebooks compute with binary floating point; here a
    float is an exact real number, and NaN (pandas' marker of a missing
    cell) is [None] in an [option R].  Rounding, overflow and signed zeros
    are outside the model. *)

From Stdlib Require Import Reals Lra String Ascii.
From Stdlib Require Import Floats.
From stdpp Require Import gmap strings list fin_maps.

#[local] Set Warnings "-clear-no-such-hyp".

(** ** Outcomes of a Python statement *)

(** A statement either completes with a value or raises; an exception is
    identified by the name of its class. *)
Inductive result (A : Type) : Type :=
| Ok (a : A)
| Raise (cls : string).
Arguments Ok {A} a.
Arguments Raise {A} cls.

(** Statements run in sequence; the first exception ends the cell. *)
#[global] Instance result_bind : MBind result := λ A B k m,
  match m with
  | Ok a => k a
  | Raise cls => Raise cls
  end.

Definition ZeroDivisionError : string := "ZeroDivisionError".
Definition KeyError : string := "KeyError".
Definition ValueError : string := "ValueError".
Definition AttributeError : string := "AttributeError".

(** ** Float arithmetic of plain Python *)

Module Py.

(** [x / y] on Python floats raises on a zero divisor. *)
Definition div (x y : R) : result R :=
  if Req_dec_T y 0 then Raise ZeroDivisionError else Ok (x / y)%R.

(** [x ** y] on floats for a positive base [x].  The annuity only raises
    [1.0 + r] to a power and discount rates are above [-1], so the other
    bases (where Python answers [0.0], an exception or a complex number)
    are not modelled. *)
Definition pow (x y : R) : R := Rpower x y.

End Py.

(** [def annuity(r, n): return r / (1.0 - 1.0 / (1.0 + r) ** n)] *)
Definition annuity (r n : R) : result R :=
  q ← Py.div 1 (Py.pow (1 + r) n);
  Py.div r (1 - q)%R.

(** The closed form that the notebook documents, [r / (1 - (1+r)^-n)]. *)
Definition annuity_formula (r n : R) : R :=
  (r / (1 - Rpower (1 + r) (- n)))%R.

(** ** NaN-propagating arithmetic of numpy scalars and pandas columns *)

Module Np.

Definition lift2 (f : R → R → R) (a b : option R) : option R :=
  match a, b with
  | Some x, Some y => Some (f x y)
  | _, _ => None
  end.

Definition add : option R → option R → option R := lift2 Rplus.
Definition sub : option R → option R → option R := lift2 Rminus.
Definition mul : option R → option R → option R := lift2 Rmult.
Definition pow : option R → option R → option R := lift2 Py.pow.

(** A zero divisor gives NaN or an infinity and a warning, never an
    exception and never a finite number: [None]. *)
Definition div (a b : option R) : option R :=
  match a, b with
  | Some x, Some y => if Req_dec_T y 0 then None else Some (x / y)%R
  | _, _ => None
  end.

End Np.

(** The body of [annuity] when pandas hands it [numpy.float64] scalars, as
    in [costs.apply(lambda x: annuity(x["discount rate"], x["lifetime"]), axis=1)]. *)
Definition annuity_np (r n : option R) : option R :=
  Np.div r (Np.sub (Some 1%R) (Np.div (Some 1%R) (Np.pow (Np.add (Some 1%R) r) n))).

(** ** Strings of the unit column *)

Module Str.

(** [s.startswith(p)] *)
Fixpoint startswith (p s : string) : bool :=
  match p, s with
  | EmptyString, _ => true
  | String a p', String c s' => Ascii.eqb a c && startswith p' s'
  | String _ _, EmptyString => false
  end.

(** [pat in s]: what [Series.str.contains(pat)] computes in each row for a
    pattern without regular-expression metacharacters. *)
Fixpoint contains (pat s : string) : bool :=
  startswith pat s ||
  match s with
  | EmptyString => false
  | String _ s' => contains pat s'
  end.

(** [s.replace(old, new)] for a non-empty [old]: the occurrences of [old]
    are replaced from left to right and the scan resumes behind each one.
    [skip] counts the characters of a matched occurrence still to drop. *)
Fixpoint replace_from (old new : string) (skip : nat) (s : string) : string :=
  match s with
  | EmptyString => EmptyString
  | String c s' =>
      match skip with
      | S k => replace_from old new k s'
      | O =>
          if startswith old s
          then new +:+ replace_from old new (String.length old - 1) s'
          else String c (replace_from old new 0 s')
      end
  end.

Definition replace (old new s : string) : string := replace_from old new 0 s.

End Str.

(** ** The raw cost table *)

Module Raw.

(** One line of [costs_2030.csv], indexed by (technology, parameter), once
    its unit is known to be text.  A line whose unit field is empty is
    read as NaN; [Csv.Row] below is the line as read, missing unit
    included. *)
Record Row : Type := {
  technology : string;
  parameter : string;
  value : option R;
  unit : string;
  source : string
}.

Definition key (r : Row) : string * string := (technology r, parameter r).

(** [costs.loc[costs.unit.str.contains("/kW"), "value"] *= 1e3] *)
Definition scale_row (r : Row) : Row :=
  if Str.contains "/kW" (unit r)
  then {| technology := technology r; parameter := parameter r;
          value := (λ x, x * 1000)%R <$> value r;
          unit := unit r; source := source r |}
  else r.

(** [costs.unit = costs.unit.str.replace("/kW", "/MW")] *)
Definition rename_row (r : Row) : Row :=
  {| technology := technology r; parameter := parameter r;
     value := value r;
     unit := Str.replace "/kW" "/MW" (unit r); source := source r |}.

Definition rescale_units (t : list Row) : list Row :=
  rename_row <$> (scale_row <$> t).

End Raw.

(** ** The wide cost table *)

(** [columns] are the column labels and [rows] maps each technology of the
    index to its cells; a cell that is absent from its row holds NaN. *)
Record DataFrame : Type := {
  columns : gset string;
  rows : gmap string (gmap string R)
}.

Definition index (w : DataFrame) : gset string := dom (rows w).

(** The content of a cell, NaN also where the labels do not exist. *)
Definition cell (w : DataFrame) (t p : string) : option R :=
  row ← rows w !! t; row !! p.

Definition set_cell (p : string) (v : option R) (row : gmap string R) : gmap string R :=
  match v with
  | Some x => <[p := x]> row
  | None => delete p row
  end.

(** [costs.at[t, p]] *)
Definition at_get (w : DataFrame) (t p : string) : result (option R) :=
  match rows w !! t with
  | Some row => if decide (p ∈ columns w) then Ok (row !! p) else Raise KeyError
  | None => Raise KeyError
  end.

(** [costs.at[t, p] = v]: the float is stored in the cell; a label that
    does not exist yet is appended. *)
Definition at_set (w : DataFrame) (t p : string) (v : option R) : DataFrame :=
  {| columns := columns w ∪ {[p]};
     rows := <[t := set_cell p v (default ∅ (rows w !! t))]> (rows w) |}.

(** [costs.value.unstack()]: one row per technology, one column per
    parameter; a repeated (technology, parameter) pair cannot be reshaped. *)
Definition put (r : Raw.Row) (m : gmap string (gmap string R)) : gmap string (gmap string R) :=
  <[Raw.technology r := set_cell (Raw.parameter r) (Raw.value r)
                          (default ∅ (m !! Raw.technology r))]> m.

Definition unstack (t : list Raw.Row) : result DataFrame :=
  if bool_decide (NoDup (Raw.key <$> t))
  then Ok {| columns := list_to_set (Raw.parameter <$> t); rows := foldr put ∅ t |}
  else Raise ValueError.

Definition defaults_items : list (string * R) :=
  [ ("FOM", 0); ("VOM", 0); ("efficiency", 1); ("fuel", 0); ("investment", 0);
    ("lifetime", 25); ("CO2 intensity", 0); ("discount rate", 0.07) ]%R.

Definition defaults : gmap string R := list_to_map defaults_items.

(** [df.fillna(d)]: in every column that [d] names, NaN becomes the value
    that [d] gives; a cell that holds a number stays, no column is added. *)
Definition fill_row (cols : gset string) (d row : gmap string R) : gmap string R :=
  row ∪ filter (λ kv, kv.1 ∈ cols) d.

Definition fillna (d : gmap string R) (w : DataFrame) : DataFrame :=
  {| columns := columns w; rows := fill_row (columns w) d <$> rows w |}.

(** The four assignments that end the preprocessing cell:
[[
costs.at["OCGT", "fuel"] = costs.at["gas", "fuel"]
costs.at["CCGT", "fuel"] = costs.at["gas", "fuel"]
costs.at["OCGT", "CO2 intensity"] = costs.at["gas", "CO2 intensity"]
costs.at["CCGT", "CO2 intensity"] = costs.at["gas", "CO2 intensity"]
]] *)
Definition propagate (w : DataFrame) : result DataFrame :=
  v1 ← at_get w "gas" "fuel";
  let w1 := at_set w "OCGT" "fuel" v1 in
  v2 ← at_get w1 "gas" "fuel";
  let w2 := at_set w1 "CCGT" "fuel" v2 in
  v3 ← at_get w2 "gas" "CO2 intensity";
  let w3 := at_set w2 "OCGT" "CO2 intensity" v3 in
  v4 ← at_get w3 "gas" "CO2 intensity";
  Ok (at_set w3 "CCGT" "CO2 intensity" v4).

(** Later assignments [costs.at["gas", p] = x], in order. *)
Definition edit_gas (w : DataFrame) (edits : list (string * option R)) : DataFrame :=
  foldl (λ w' e, at_set w' "gas" e.1 e.2) w edits.

(** The cells that [propagate] writes. *)
Definition borrowed (t p : string) : Prop :=
  (t = "OCGT" ∨ t = "CCGT") ∧ (p = "fuel" ∨ p = "CO2 intensity").

#[global] Instance borrowed_dec t p : Decision (borrowed t p).
Proof. unfold borrowed. apply _. Defined.

(** What the name [costs] is bound to when the preprocessing cell starts:
    the table as read from the file, or a table in wide form. *)
Inductive frame : Type :=
| Long (t : list Raw.Row)
| Wide (w : DataFrame).

(** The preprocessing cell.  A wide table has no text column [unit]:
    [costs.unit.str] raises there. *)
Definition cost_normalizer (costs : frame) : result DataFrame :=
  match costs with
  | Long t =>
      w ← unstack (Raw.rescale_units t);
      propagate (fillna defaults w)
  | Wide _ => Raise AttributeError
  end.

(** ** Derived columns *)

(** [costs[p]] on the right of an assignment needs the column to exist. *)
Definition require (ps : list string) (w : DataFrame) : result () :=
  if bool_decide (Forall (λ p, p ∈ columns w) ps) then Ok () else Raise KeyError.

(** [costs[p] = s] for a series [s] over the same index, given by the
    value it has at each technology and row. *)
Definition assign (p : string) (s : string → gmap string R → option R)
    (w : DataFrame) : DataFrame :=
  {| columns := columns w ∪ {[p]};
     rows := map_imap (λ t row, Some (set_cell p (s t row) row)) (rows w) |}.

(** [costs["marginal_cost"] = costs["VOM"] + costs["fuel"] / costs["efficiency"]] *)
Definition marginal_cost_row (row : gmap string R) : option R :=
  Np.add (row !! "VOM") (Np.div (row !! "fuel") (row !! "efficiency")).

Definition add_marginal_cost (w : DataFrame) : result DataFrame :=
  _ ← require ["VOM"; "fuel"; "efficiency"] w;
  Ok (assign "marginal_cost" (λ _ row, marginal_cost_row row) w).

(** What [costs.apply(..., axis=1)] hands back: a series over the index,
    NaN where absent, or, for a table without rows on which the lambda
    fails, a copy of that empty table. *)
Inductive applied : Type :=
| Series (s : gmap string R)
| EmptyFrame.

#[global] Instance applied_lookup : Lookup string R applied := λ t a,
  match a with
  | Series s => s !! t
  | EmptyFrame => None
  end.

(** [annuity = costs.apply(lambda x: annuity(x["discount rate"], x["lifetime"]), axis=1)].
    The lambda runs once per row and raises [KeyError] without the two
    columns.  On a table without rows pandas tries it once on a row of
    NaN and swallows the exception: with the columns the result is an
    empty series, without them the empty table. *)
Definition annuity_series (w : DataFrame) : result applied :=
  if decide (rows w = ∅) then
    if decide ("discount rate" ∈ columns w ∧ "lifetime" ∈ columns w)
    then Ok (Series ∅) else Ok EmptyFrame
  else
    _ ← require ["discount rate"; "lifetime"] w;
    Ok (Series (omap (λ row, annuity_np (row !! "discount rate") (row !! "lifetime"))
                  (rows w))).

(** [costs["capital_cost"] = (annuity + costs["FOM"] / 100) * costs["investment"]] *)
Definition capital_cost_row (a : option R) (row : gmap string R) : option R :=
  Np.mul (Np.add a (Np.div (row !! "FOM") (Some 100%R))) (row !! "investment").

(** A table in place of a series cannot be assigned to one column. *)
Definition add_capital_cost (a : applied) (w : DataFrame) : result DataFrame :=
  _ ← require ["FOM"; "investment"] w;
  match a with
  | Series s => Ok (assign "capital_cost" (λ t row, capital_cost_row (s !! t) row) w)
  | EmptyFrame => Raise ValueError
  end.

(** ** The generator loop of the dispatch notebook *)

(** The keyword arguments of one [n.add("Generator", ...)] call. *)
Record Generator : Type := {
  name : string;
  bus : string;
  carrier : string;
  efficiency : R;
  p_nom : R;
  marginal_cost : R
}.

(** [[
for tech, p_nom in power_plants["A"].items():
    n.add("Generator", f"A {tech}", bus="A", carrier=tech,
          efficiency=efficiency.get(tech, 1), p_nom=p_nom,
          marginal_cost=fuel_cost.get(tech, 0) / efficiency.get(tech, 1))
]] *)
Definition generator_A (fuel_cost efficiency_of : gmap string R)
    (plant : string * R) : result Generator :=
  let tech := plant.1 in
  mc ← Py.div (default 0%R (fuel_cost !! tech)) (default 1%R (efficiency_of !! tech));
  Ok {| name := "A " +:+ tech; bus := "A"; carrier := tech;
        efficiency := default 1%R (efficiency_of !! tech);
        p_nom := plant.2; marginal_cost := mc |}.

Fixpoint generators_A (fuel_cost efficiency_of : gmap string R)
    (plants : list (string * R)) : result (list Generator) :=
  match plants with
  | [] => Ok []
  | plant :: rest =>
      g ← generator_A fuel_cost efficiency_of plant;
      gs ← generators_A fuel_cost efficiency_of rest;
      Ok (g :: gs)
  end.

(** The tables of the dispatch notebook. *)
Definition fuel_cost : gmap string R :=
  list_to_map [("coal", 8); ("gas", 100); ("oil", 48); ("hydro", 1); ("wind", 0)]%R.

Definition efficiency_table : gmap string R :=
  list_to_map [("coal", 0.33); ("gas", 0.58); ("oil", 0.35); ("hydro", 1); ("wind", 1)]%R.

Definition power_plants_A : list (string * R) :=
  [("coal", 35000); ("wind", 3000); ("gas", 8000); ("oil", 2000)]%R.

(** ** Sample tables *)

(** A wide table written out cell by cell. *)
Definition frame_of (cols : list string)
    (cells : list (string * list (string * R))) : DataFrame :=
  {| columns := list_to_set cols;
     rows := list_to_map ((λ tc, (tc.1, list_to_map tc.2)) <$> cells) |}.

Definition raw_row (t p : string) (v : R) (u : string) : Raw.Row :=
  {| Raw.technology := t; Raw.parameter := p; Raw.value := Some v;
     Raw.unit := u; Raw.source := "" |}.

(** A few lines in the format of the cost file. *)
Definition sample_raw : list Raw.Row :=
  [ raw_row "CCGT" "efficiency" 0.58 "per unit";
    raw_row "CCGT" "investment" 830 "EUR/kW";
    raw_row "OCGT" "fuel" 30 "EUR/MWh_th";
    raw_row "OCGT" "investment" 435 "EUR/kW";
    raw_row "gas" "CO2 intensity" 0.2 "tCO2/MWh_th";
    raw_row "gas" "fuel" 24 "EUR/MWh_th" ]%R.

(** [sample_raw] in wide form, with the units rescaled. *)
Definition sample_wide : DataFrame :=
  frame_of ["efficiency"; "investment"; "fuel"; "CO2 intensity"]
    [ ("CCGT", [("efficiency", 0.58); ("investment", 830 * 1000)]);
      ("OCGT", [("fuel", 30); ("investment", 435 * 1000)]);
      ("gas", [("fuel", 24); ("CO2 intensity", 0.2)]) ]%R.

(** The wide table that the preprocessing cell makes of [sample_raw]. *)
Definition sample_costs : DataFrame :=
  frame_of ["efficiency"; "investment"; "fuel"; "CO2 intensity"]
    [ ("CCGT", [("efficiency", 0.58); ("investment", 830 * 1000);
                ("fuel", 24); ("CO2 intensity", 0.2)]);
      ("OCGT", [("efficiency", 1); ("investment", 435 * 1000);
                ("fuel", 24); ("CO2 intensity", 0.2)]);
      ("gas", [("efficiency", 1); ("investment", 0);
               ("fuel", 24); ("CO2 intensity", 0.2)]) ]%R.

(** A table that lacks the fuel commodity. *)
Definition no_gas : DataFrame :=
  frame_of ["fuel"; "CO2 intensity"; "efficiency"]
    [ ("OCGT", [("fuel", 30); ("efficiency", 0.41)]);
      ("CCGT", [("efficiency", 0.42)]) ]%R.

(** A table with every column that the derived costs read. *)
Definition sample_full : DataFrame :=
  frame_of ["FOM"; "VOM"; "efficiency"; "fuel"; "investment"; "lifetime";
            "CO2 intensity"; "discount rate"]
    [ ("OCGT", [("FOM", 1.78); ("VOM", 4.5); ("efficiency", 0.41); ("fuel", 24);
                ("investment", 435000); ("lifetime", 25);
                ("CO2 intensity", 0.2); ("discount rate", 0.07)]);
      ("gas", [("FOM", 0); ("VOM", 0); ("efficiency", 1); ("fuel", 24);
               ("investment", 0); ("lifetime", 25);
               ("CO2 intensity", 0.2); ("discount rate", 0.07)]) ]%R.

(** ** The assembly cells of the investment notebook *)

(** [[
carriers = ["onwind", "solar", "OCGT", "hydrogen storage underground",
            "battery storage"]
]] *)
Definition carriers : list string :=
  ["onwind"; "solar"; "OCGT"; "hydrogen storage underground"; "battery storage"].

(** [co2_emissions=[costs.at[c, "CO2 intensity"] for c in carriers]] *)
Fixpoint carrier_emissions (w : DataFrame) (cs : list string) : result (list (option R)) :=
  match cs with
  | [] => Ok []
  | c :: rest =>
      v ← at_get w c "CO2 intensity";
      vs ← carrier_emissions w rest;
      Ok (v :: vs)
  end.

Module Storage.

(** The keyword arguments of one [n.add("StorageUnit", ...)] call. *)
Record Unit : Type := {
  name : string;
  bus : string;
  carrier : string;
  max_hours : R;
  capital_cost : option R;
  efficiency_store : option R;
  efficiency_dispatch : option R;
  p_nom_extendable : bool;
  cyclic_state_of_charge : bool
}.

(** [[
n.add("StorageUnit", "battery storage", bus="electricity",
      carrier="battery storage", max_hours=4,
      capital_cost=costs.at["battery inverter", "capital_cost"]
      + 4 * costs.at["battery storage", "capital_cost"],
      efficiency_store=costs.at["battery inverter", "efficiency"],
      efficiency_dispatch=costs.at["battery inverter", "efficiency"],
      p_nom_extendable=True, cyclic_state_of_charge=True)
]] *)
Definition battery (costs : DataFrame) : result Unit :=
  inverter ← at_get costs "battery inverter" "capital_cost";
  energy ← at_get costs "battery storage" "capital_cost";
  eta_store ← at_get costs "battery inverter" "efficiency";
  eta_dispatch ← at_get costs "battery inverter" "efficiency";
  Ok {| name := "battery storage"; bus := "electricity";
        carrier := "battery storage"; max_hours := 4;
        capital_cost := Np.add inverter (Np.mul (Some 4%R) energy);
        efficiency_store := eta_store; efficiency_dispatch := eta_dispatch;
        p_nom_extendable := true; cyclic_state_of_charge := true |}.

(** [[
capital_costs = (
    costs.at["electrolysis", "capital_cost"]
    + costs.at["fuel cell", "capital_cost"]
    + 336 * costs.at["hydrogen storage underground", "capital_cost"]
)
n.add("StorageUnit", "hydrogen storage underground", bus="electricity",
      carrier="hydrogen storage underground", max_hours=336,
      capital_cost=capital_costs,
      efficiency_store=costs.at["electrolysis", "efficiency"],
      efficiency_dispatch=costs.at["fuel cell", "efficiency"],
      p_nom_extendable=True, cyclic_state_of_charge=True)
]] *)
Definition hydrogen (costs : DataFrame) : result Unit :=
  electrolysis ← at_get costs "electrolysis" "capital_cost";
  fuel_cell ← at_get costs "fuel cell" "capital_cost";
  cavern ← at_get costs "hydrogen storage underground" "capital_cost";
  eta_store ← at_get costs "electrolysis" "efficiency";
  eta_dispatch ← at_get costs "fuel cell" "efficiency";
  Ok {| name := "hydrogen storage underground"; bus := "electricity";
        carrier := "hydrogen storage underground"; max_hours := 336;
        capital_cost :=
          Np.add (Np.add electrolysis fuel_cell) (Np.mul (Some 336%R) cavern);
        efficiency_store := eta_store; efficiency_dispatch := eta_dispatch;
        p_nom_extendable := true; cyclic_state_of_charge := true |}.

End Storage.

(** ** The two halves of the dispatch plot *)

(** [p.where(cond, 0)] for a condition on the cell itself: a cell of the
    table keeps its number where the condition holds and becomes 0
    elsewhere, also where it held NaN (a comparison with NaN is false). *)
Definition where_or_0 (cond : R → bool) (x : option R) : R :=
  match x with
  | Some v => if cond v then v else 0%R
  | None => 0%R
  end.

Definition where_cells (cond : R → bool) (p : DataFrame) : DataFrame :=
  {| columns := columns p;
     rows := (λ row, map_imap (λ c _, Some (where_or_0 cond (row !! c)))
                       (gset_to_gmap () (columns p))) <$> rows p |}.

Definition gt0 (v : R) : bool := if Rlt_dec 0 v then true else false.
Definition lt0 (v : R) : bool := if Rlt_dec v 0 then true else false.

(** [supply = p.where(p > 0, 0)] and [withdrawal = p.where(p < 0, 0)] in
    [plot_dispatch]. *)
Definition supply (p : DataFrame) : DataFrame := where_cells gt0 p.
Definition withdrawal (p : DataFrame) : DataFrame := where_cells lt0 p.

(** ** The sector-coupling notebook *)

(** [[
def cop(t_source, t_sink=55):
    delta_t = t_sink - t_source
    return 6.81 - 0.121 * delta_t + 0.000630 * delta_t**2
]] *)
Definition cop (t_source t_sink : R) : R :=
  let delta_t := (t_sink - t_source)%R in
  (6.81 - 0.121 * delta_t + 0.000630 * delta_t ^ 2)%R.

(** [cop(t_source)], with the default sink temperature. *)
Definition cop_default (t_source : R) : R := cop t_source 55.

(** [cop(temp)] on a series, NaN staying NaN. *)
Definition cop_series (temp : list (option R)) : list (option R) :=
  (λ t : option R, cop_default <$> t) <$> temp.

(** [s[::step]]: the entries at the positions 0, [step], 2 [step], ...;
    a step of zero is refused.  [skip] counts the entries to pass over
    before the next one is taken. *)
Fixpoint stride_from {A : Type} (step skip : nat) (l : list A) : list A :=
  match l with
  | [] => []
  | x :: l' =>
      match skip with
      | O => x :: stride_from step (step - 1) l'
      | S k => stride_from step k l'
      end
  end.

Definition stride {A : Type} (step : nat) (l : list A) : result (list A) :=
  match step with
  | O => Raise ValueError
  | S _ => Ok (stride_from step 0 l)
  end.

(** A cost table with derived columns for the technologies that the
    assembly cells look up. *)
Definition sample_assembly : DataFrame :=
  frame_of ["CO2 intensity"; "capital_cost"; "efficiency"]
    [ ("OCGT", [("CO2 intensity", 0.2); ("capital_cost", 45000); ("efficiency", 0.41)]);
      ("battery inverter", [("CO2 intensity", 0); ("capital_cost", 14000);
                            ("efficiency", 0.96)]);
      ("battery storage", [("CO2 intensity", 0); ("capital_cost", 13000);
                           ("efficiency", 1)]);
      ("electrolysis", [("CO2 intensity", 0); ("capital_cost", 50000);
                        ("efficiency", 0.7)]);
      ("fuel cell", [("CO2 intensity", 0); ("capital_cost", 120000);
                     ("efficiency", 0.5)]);
      ("gas", [("CO2 intensity", 0.2); ("capital_cost", 0); ("efficiency", 1)]);
      ("hydrogen storage underground",
         [("CO2 intensity", 0); ("capital_cost", 140); ("efficiency", 1)]);
      ("onwind", [("CO2 intensity", 0); ("capital_cost", 100000); ("efficiency", 1)]);
      ("solar", [("CO2 intensity", 0); ("capital_cost", 50000); ("efficiency", 1)]) ]%R.

(** ** Binary64 arithmetic of plain Python *)

(** The exact reals above leave rounding out.  Where a property turns on
    rounding, the same function body is read here on IEEE 754 binary64
    numbers, the floats of Python. *)
Module F64.

(** [x / y] on Python floats raises on a zero divisor, of either sign. *)
Definition div (x y : float) : result float :=
  if (y =? 0)%float then Raise ZeroDivisionError else Ok (x / y)%float.

(** [v ** w] on Python floats.  The interpreter settles two cases before
    it turns to the C library: anything to the power zero is 1.0, and 1.0
    to any power is 1.0.  Every other case (the library's [pow], and the
    exceptions raised for its overflow, for a zero base and a negative
    exponent, ...) is left to [rest]. *)
Definition pow (rest : float → float → result float) (v w : float) : result float :=
  if (w =? 0)%float then Ok 1%float
  else if (v =? 1)%float then Ok 1%float
  else rest v w.

(** [def annuity(r, n): return r / (1.0 - 1.0 / (1.0 + r) ** n)] *)
Definition annuity (rest : float → float → result float) (r n : float) : result float :=
  p ← pow rest (1 + r)%float n;
  q ← div 1%float p;
  div r (1 - q)%float.

End F64.

(** ** The cost file as read *)

Module Csv.

(** A line of the file as [pd.read_csv] delivers it: an empty field of the
    unit column is NaN, not text. *)
Record Row : Type := {
  technology : string;
  parameter : string;
  value : option R;
  unit : option string;
  source : string
}.


End Csv.


(** * Properties *)

(** ** The annuity *)

Section AnnuityFacts.
Local Open Scope R_scope.

Lemma div_ok x y : y ≠ 0 → Py.div x y = Ok (x / y).
Proof.
  intros Hy. unfold Py.div.
  destruct (Req_dec_T y 0); [contradiction | reflexivity].
Qed.

Lemma div_zero x : Py.div x 0 = Raise ZeroDivisionError.
Proof. unfold Py.div. destruct (Req_dec_T 0 0); [reflexivity | contradiction]. Qed.

Lemma pow_pos x y : 0 < Py.pow x y.
Proof. unfold Py.pow, Rpower. apply exp_pos. Qed.

Lemma pow_base_1 y : Py.pow 1 y = 1.
Proof. unfold Py.pow, Rpower. rewrite ln_1, Rmult_0_r. apply exp_0. Qed.

Lemma pow_gt_1 x y : 1 < x → 0 < y → 1 < Py.pow x y.
Proof.
  intros Hx Hy. unfold Py.pow.
  rewrite <- (Rpower_O x) by lra. apply Rpower_lt; assumption.
Qed.

(** For a positive rate and lifetime the discount term lies in (0,1). *)
Lemma discount_term_bounds r n :
  0 < r → 0 < n → 0 < 1 / Py.pow (1 + r) n < 1.
Proof.
  intros Hr Hn.
  assert (H1 : 1 < Py.pow (1 + r) n) by (apply pow_gt_1; lra).
  split.
  - apply Rdiv_lt_0_compat; lra.
  - apply (Rmult_lt_reg_r (Py.pow (1 + r) n)); [lra |].
    unfold Rdiv. rewrite Rmult_assoc, Rinv_l by lra. lra.
Qed.

Lemma annuity_formula_eq r n :
  r / (1 - 1 / Py.pow (1 + r) n) = annuity_formula r n.
Proof.
  unfold annuity_formula, Py.pow. rewrite Rpower_Ropp.
  unfold Rdiv. now rewrite Rmult_1_l.
Qed.

Lemma annuity_defined r n :
  0 < r → 0 < n → annuity r n = Ok (annuity_formula r n).
Proof.
  intros Hr Hn. unfold annuity.
  pose proof (pow_pos (1 + r) n) as Hp.
  pose proof (discount_term_bounds r n Hr Hn) as Hq.
  rewrite div_ok by lra. cbn.
  rewrite <- annuity_formula_eq. apply div_ok. lra.
Qed.

Lemma annuity_rate_zero n : annuity 0 n = Raise ZeroDivisionError.
Proof.
  unfold annuity. rewrite Rplus_0_r, pow_base_1.
  rewrite div_ok by lra. cbn.
  replace (1 - 1 / 1) with 0 by lra. apply div_zero.
Qed.

(** Mean value form of the discount term [x ↦ x^(-n)] between two bases. *)
Lemma discount_mean_value n a b :
  0 < a → a < b →
  ∃ c, a < c < b ∧
    Rpower b (- n) - Rpower a (- n) = - n * Rpower c (- n - 1) * (b - a).
Proof.
  intros Ha Hab.
  destruct (MVT_cor2 (fun x => Rpower x (- n))
              (fun x => - n * Rpower x (- n - 1)) a b Hab) as (c & Hc & Hin).
  - intros c Hc. apply derivable_pt_lim_power. lra.
  - exists c. split; [exact Hin | exact Hc].
Qed.




(** The value stays above [1/n] and comes down to it as the rate falls to
    zero, but it is never equal to it. *)
Lemma annuity_formula_above_limit r n :
  0 < r → 0 < n →
  1 / n < annuity_formula r n < Rpower (1 + r) (n + 1) / n.
Proof.
  intros Hr Hn. unfold annuity_formula.
  destruct (discount_mean_value n 1 (1 + r)) as (c & Hc & E); [lra | lra |].
  replace (Rpower 1 (- n)) with 1 in E by (symmetry; apply pow_base_1).
  assert (Hd : 1 - Rpower (1 + r) (- n) = n * Rpower c (- n - 1) * r) by lra.
  rewrite Hd.
  replace (- n - 1) with (- (n + 1)) by lra. rewrite Rpower_Ropp.
  assert (Hc1 : 1 < Rpower c (n + 1)) by (apply pow_gt_1; lra).
  assert (Hc2 : Rpower c (n + 1) < Rpower (1 + r) (n + 1))
    by (apply Rlt_Rpower_l; lra).
  replace (r / (n * / Rpower c (n + 1) * r)) with (Rpower c (n + 1) / n)
    by (field; lra).
  split; apply Rmult_lt_compat_r; try lra; apply Rinv_0_lt_compat; lra.
Qed.


Lemma annuity_np_nan r n cls :
  annuity r n = Raise cls → annuity_np (Some r) (Some n) = None.
Proof.
  unfold annuity, annuity_np, Py.div. cbn.
  destruct (Req_dec_T (Py.pow (1 + r) n) 0); cbn; [done |].
  destruct (Req_dec_T _ 0); [done | discriminate].
Qed.

(** On floats a rate that vanishes beside 1.0 makes the call raise,
    whatever the lifetime and whatever the C library computes. *)
Lemma annuity_f64_lost_rate rest r n :
  ((1 + r =? 1) = true)%float →
  F64.annuity rest r n = Raise ZeroDivisionError.
Proof.
  intros H. unfold F64.annuity, F64.pow. rewrite H.
  destruct (n =? 0)%float; reflexivity.
Qed.

End AnnuityFacts.

(** ** Unit strings and the rescaling of the raw table *)

Section UnitStrings.
Import Str.

Lemma startswith_cons a p c s :
  startswith (String a p) (String c s) = Ascii.eqb a c && startswith p s.
Proof. reflexivity. Qed.

Lemma contains_cons pat c s :
  contains pat (String c s) = startswith pat (String c s) || contains pat s.
Proof. reflexivity. Qed.

(** A string without the pattern is left as it is. *)
Lemma replace_absent old new s :
  contains old s = false → replace old new s = s.
Proof.
  unfold replace. induction s as [|c s IH]; [reflexivity |].
  rewrite contains_cons. intros [Hs Hc]%orb_false_iff.
  cbn [replace_from]. rewrite Hs. f_equal. auto.
Qed.

(** The two ways in which [replace] steps into a non-empty string. *)
Lemma replace_kW_hit s :
  replace "/kW" "/MW" (String "/" (String "k" (String "W" s)))
  = String "/" (String "M" (String "W" (replace "/kW" "/MW" s))).
Proof. reflexivity. Qed.

Lemma replace_kW_miss c s :
  startswith "/kW" (String c s) = false →
  replace "/kW" "/MW" (String c s) = String c (replace "/kW" "/MW" s).
Proof. unfold replace. cbn [replace_from]. now intros ->. Qed.

Lemma startswith_kW_inv s :
  startswith "/kW" s = true → ∃ s', s = String "/" (String "k" (String "W" s')).
Proof.
  destruct s as [|c0 [|c1 [|c2 s]]]; cbn [startswith]; intros H;
    repeat match type of H with
      | _ && _ = true => apply andb_prop in H as [?%Ascii.eqb_eq H]
      | context [Ascii.eqb _ _ && false] => rewrite andb_false_r in H
      end; try discriminate.
  subst. now exists s.
Qed.

(** The output of [replace] starts with a character other than the slash
    only if the input starts with it. *)
Lemma replace_head c s t :
  c ≠ "/"%char →
  replace "/kW" "/MW" s = String c t →
  ∃ s', s = String c s' ∧ t = replace "/kW" "/MW" s'.
Proof.
  intros Hc. destruct s as [|d s]; [discriminate |].
  destruct (startswith "/kW" (String d s)) eqn:Hs.
  - apply startswith_kW_inv in Hs as [s' ->]. rewrite replace_kW_hit.
    intros [= <- _]. now contradiction Hc.
  - rewrite replace_kW_miss by done. intros [= -> <-]. eauto.
Qed.

Lemma replace_keeps_miss c s :
  startswith "/kW" (String c s) = false →
  startswith "/kW" (String c (replace "/kW" "/MW" s)) = false.
Proof.
  intros Hs.
  destruct (startswith "/kW" (String c (replace "/kW" "/MW" s))) eqn:Hout;
    [| reflexivity].
  apply startswith_kW_inv in Hout as [t Ht]. injection Ht as -> Ht.
  apply replace_head in Ht as (s1 & -> & Ht); [| discriminate].
  symmetry in Ht. apply replace_head in Ht as (s2 & -> & _); [| discriminate].
  discriminate Hs.
Qed.

Lemma replace_kW_clean_upto n s :
  String.length s ≤ n → contains "/kW" (replace "/kW" "/MW" s) = false.
Proof.
  revert s. induction n as [|n IH]; intros [|c s] Hlen; try reflexivity.
  - cbn in Hlen. lia.
  - cbn [String.length] in Hlen.
    destruct (startswith "/kW" (String c s)) eqn:Hs.
    + apply startswith_kW_inv in Hs as [s' E]. rewrite E, replace_kW_hit.
      injection E as -> ->. cbn [String.length] in Hlen.
      change (contains "/kW" (String "/" (String "M" (String "W" ?t))))
        with (contains "/kW" t).
      apply IH. lia.
    + rewrite replace_kW_miss by done.
      rewrite contains_cons, replace_keeps_miss by done.
      apply IH. lia.
Qed.

(** After the renaming no unit mentions "/kW" any more. *)
Lemma replace_kW_clean s : contains "/kW" (replace "/kW" "/MW" s) = false.
Proof. exact (replace_kW_clean_upto (String.length s) s (le_n _)). Qed.

Lemma replace_kW_idem s :
  replace "/kW" "/MW" (replace "/kW" "/MW" s) = replace "/kW" "/MW" s.
Proof. apply replace_absent, replace_kW_clean. Qed.

End UnitStrings.

Section Rescaling.
Import Raw.

(** A row whose unit was renamed is not scaled again. *)
Lemma scale_row_renamed r : scale_row (rename_row r) = rename_row r.
Proof.
  unfold scale_row at 1. cbn [unit rename_row]. now rewrite replace_kW_clean.
Qed.

Lemma rename_row_idem r : rename_row (rename_row r) = rename_row r.
Proof.
  unfold rename_row. cbn [technology parameter value unit source].
  now rewrite replace_kW_idem.
Qed.

Lemma rescale_row_idem r :
  rename_row (scale_row (rename_row (scale_row r))) = rename_row (scale_row r).
Proof. now rewrite scale_row_renamed, rename_row_idem. Qed.

Lemma rescale_units_idem t : rescale_units (rescale_units t) = rescale_units t.
Proof.
  unfold rescale_units. induction t as [|r t IH]; [reflexivity |].
  cbn [fmap list_fmap] in *. f_equal; [apply rescale_row_idem | exact IH].
Qed.

(** Rescaling touches values and units only. *)
Lemma key_rescale_row r : key (rename_row (scale_row r)) = key r.
Proof. unfold key, scale_row. now destruct (Str.contains "/kW" (unit r)). Qed.


Lemma technologies_rescale_units t :
  technology <$> rescale_units t = technology <$> t.
Proof.
  unfold rescale_units. rewrite <- !list_fmap_compose.
  apply list_fmap_ext. intros i r _.
  exact (f_equal fst (key_rescale_row r)).
Qed.

End Rescaling.

(** ** The wide table *)

Section Frames.
Implicit Types (w : DataFrame) (t p q : string) (v : option R)
  (row d : gmap string R).

Lemma cell_outside w t p : t ∉ index w → cell w t p = None.
Proof. unfold cell, index. intros H%not_elem_of_dom. now rewrite H. Qed.

(** Two tables with the same labels and the same cells are the same. *)
Lemma frame_ext w1 w2 :
  columns w1 = columns w2 → index w1 = index w2 →
  (∀ t p, cell w1 t p = cell w2 t p) → w1 = w2.
Proof.
  destruct w1 as [c1 r1], w2 as [c2 r2]. unfold index, cell. cbn.
  intros -> Hdom Hcell. f_equal. apply map_eq. intros t.
  specialize (Hcell t).
  destruct (r1 !! t) as [row1|] eqn:E1, (r2 !! t) as [row2|] eqn:E2; cbn in Hcell.
  - f_equal. now apply map_eq.
  - apply elem_of_dom_2 in E1. apply not_elem_of_dom in E2. congruence.
  - apply elem_of_dom_2 in E2. apply not_elem_of_dom in E1. congruence.
  - reflexivity.
Qed.

Lemma lookup_set_cell p v row q :
  set_cell p v row !! q = if decide (p = q) then v else row !! q.
Proof.
  unfold set_cell. destruct v.
  - rewrite lookup_insert. now repeat case_decide.
  - rewrite lookup_delete. now repeat case_decide.
Qed.

(** *** Item access *)

Lemma cell_at_set w t p v t' q :
  cell (at_set w t p v) t' q =
    if decide (t = t' ∧ p = q) then v else cell w t' q.
Proof.
  unfold cell, at_set. cbn. rewrite lookup_insert.
  destruct (decide (t = t')) as [<-|Ht]; cbn.
  - rewrite lookup_set_cell.
    destruct (decide (p = q)) as [<-|Hp].
    + now rewrite decide_True.
    + rewrite decide_False by tauto. now destruct (rows w !! t).
  - rewrite decide_False by tauto. done.
Qed.

Lemma index_at_set w t p v : index (at_set w t p v) = {[t]} ∪ index w.
Proof. unfold index, at_set. cbn. apply dom_insert_L. Qed.

Lemma at_get_inv w t p v :
  at_get w t p = Ok v → t ∈ index w ∧ p ∈ columns w ∧ v = cell w t p.
Proof.
  unfold at_get, index, cell. destruct (rows w !! t) as [row|] eqn:E; [| done].
  case_decide; [| done]. intros [= <-]. split; [by eapply elem_of_dom_2 | done].
Qed.

Lemma at_get_cell w t p :
  t ∈ index w → p ∈ columns w → at_get w t p = Ok (cell w t p).
Proof.
  unfold index, at_get, cell. intros [row ->]%elem_of_dom Hp.
  now rewrite decide_True.
Qed.

Lemma at_get_no_row w t p : t ∉ index w → at_get w t p = Raise KeyError.
Proof. unfold at_get, index. intros H%not_elem_of_dom. now rewrite H. Qed.

Lemma at_get_no_column w t p : p ∉ columns w → at_get w t p = Raise KeyError.
Proof.
  unfold at_get. intros Hp.
  destruct (rows w !! t); [now rewrite decide_False | done].
Qed.

(** Writing another technology's row leaves a read as it was. *)
Lemma at_get_at_set_ne w t p v t' q :
  t ≠ t' → t' ∈ index w → q ∈ columns w →
  at_get (at_set w t p v) t' q = at_get w t' q.
Proof.
  intros Ht Hi Hq. rewrite (at_get_cell w) by done.
  rewrite at_get_cell.
  - rewrite cell_at_set, decide_False; [done | tauto].
  - rewrite index_at_set. set_solver.
  - cbn. set_solver.
Qed.

(** *** Reshaping *)

Lemma dom_foldr_put (t : list Raw.Row) :
  dom (foldr put ∅ t) = list_to_set (Raw.technology <$> t).
Proof.
  induction t as [|r t IH]; cbn.
  - apply dom_empty_L.
  - unfold put at 1. rewrite dom_insert_L. now rewrite IH.
Qed.

(** The index of the unstacked table is the set of technologies that the
    raw table names. *)
Lemma unstack_inv (t : list Raw.Row) w :
  unstack t = Ok w →
  NoDup (Raw.key <$> t) ∧ index w = list_to_set (Raw.technology <$> t).
Proof.
  unfold unstack. case_bool_decide as Hnd; [| done]. intros [= <-].
  split; [exact Hnd |]. apply dom_foldr_put.
Qed.


(** *** Default filling *)

Lemma lookup_fill_row cols d row p :
  fill_row cols d row !! p =
    match row !! p with
    | Some x => Some x
    | None => if decide (p ∈ cols) then d !! p else None
    end.
Proof.
  unfold fill_row. rewrite lookup_union, map_lookup_filter.
  destruct (decide (p ∈ cols)) as [Hp|Hp].
  - destruct (row !! p), (d !! p); cbn; rewrite ?option_guard_True by done; done.
  - destruct (row !! p), (d !! p); cbn; rewrite ?option_guard_False by done; done.
Qed.

Lemma index_fillna d w : index (fillna d w) = index w.
Proof. unfold index, fillna. cbn. apply dom_fmap_L. Qed.

Lemma cell_fillna d w t p :
  cell (fillna d w) t p =
    match cell w t p with
    | Some x => Some x
    | None => if decide (t ∈ index w ∧ p ∈ columns w) then d !! p else None
    end.
Proof.
  unfold cell, fillna, index. cbn. rewrite lookup_fmap.
  destruct (rows w !! t) as [row|] eqn:E; cbn.
  - rewrite lookup_fill_row. destruct (row !! p); [done |].
    apply elem_of_dom_2 in E. repeat case_decide; tauto.
  - apply not_elem_of_dom in E. rewrite decide_False; tauto.
Qed.

Lemma fillna_idem d w : fillna d (fillna d w) = fillna d w.
Proof.
  apply frame_ext; [done | now rewrite !index_fillna |].
  intros t p. rewrite (cell_fillna d (fillna d w)), index_fillna. cbn.
  destruct (cell (fillna d w) t p) eqn:E; [done |].
  rewrite cell_fillna in E. destruct (cell w t p); [done |].
  now case_decide.
Qed.

(** *** Propagation of the gas values *)

Lemma propagate_succeeds w :
  "gas" ∈ index w → "fuel" ∈ columns w → "CO2 intensity" ∈ columns w →
  ∃ w', propagate w = Ok w'.
Proof.
  intros Hg Hf Hc. unfold propagate.
  do 4 (rewrite at_get_cell by (rewrite ?index_at_set; cbn; set_solver); cbn).
  eauto.
Qed.

Lemma propagate_effect w w' :
  propagate w = Ok w' →
  "gas" ∈ index w ∧ "fuel" ∈ columns w ∧ "CO2 intensity" ∈ columns w ∧
  columns w' = columns w ∧ index w' = {["OCGT"; "CCGT"]} ∪ index w ∧
  ∀ t p, cell w' t p = if decide (borrowed t p) then cell w "gas" p else cell w t p.
Proof.
  unfold propagate. intros H.
  destruct (at_get w "gas" "fuel") as [v1|] eqn:E1; cbn in H; [| done].
  apply at_get_inv in E1 as (Hg & Hf & ->).
  rewrite at_get_at_set_ne, (at_get_cell w) in H by done. cbn in H.
  destruct (at_get _ "gas" "CO2 intensity") as [v3|] eqn:E3 in H; cbn in H; [| done].
  apply at_get_inv in E3 as (_ & Hc & ->). cbn in Hc.
  assert (Hc' : "CO2 intensity" ∈ columns w) by set_solver.
  rewrite !cell_at_set, !decide_False in H by (intros [[=] _]).
  rewrite !at_get_at_set_ne, (at_get_cell w) in H; try done; cbn;
    rewrite ?index_at_set; try set_solver.
  cbn in H. injection H as <-.
  split; [done |]. split; [done |]. split; [done |]. split; [cbn; set_solver |].
  split; [rewrite !index_at_set; set_solver |].
  intros t p. rewrite !cell_at_set. unfold borrowed.
  repeat case_decide; naive_solver.
Qed.

Lemma not_borrowed_gas p : ¬ borrowed "gas" p.
Proof. intros [[[=]|[=]] _]. Qed.

Lemma propagate_idem w w' : propagate w = Ok w' → propagate w' = Ok w'.
Proof.
  intros H. destruct (propagate_effect _ _ H) as (Hg & Hf & Hc & Hcol & Hidx & Hcell).
  destruct (propagate_succeeds w') as [w'' H''].
  { rewrite Hidx. set_solver. }
  { now rewrite Hcol. }
  { now rewrite Hcol. }
  rewrite H''. f_equal.
  destruct (propagate_effect _ _ H'') as (_ & _ & _ & Hcol' & Hidx' & Hcell').
  apply frame_ext.
  - done.
  - rewrite Hidx', Hidx. set_solver.
  - intros t p. rewrite Hcell', !Hcell.
    rewrite (decide_False (P := borrowed "gas" p)) by apply not_borrowed_gas.
    now case_decide.
Qed.

(** Once the gas turbines have rows of their own, filling finds nothing
    left to fill in a table that was filled and propagated. *)
Lemma fillna_after_propagate w w' :
  "OCGT" ∈ index w → "CCGT" ∈ index w →
  propagate (fillna defaults w) = Ok w' → fillna defaults w' = w'.
Proof.
  intros Ho Hc H.
  destruct (propagate_effect _ _ H) as (Hg & _ & _ & Hcol & Hidx & Hcell).
  rewrite index_fillna in Hidx, Hg. cbn in Hcol.
  assert (Hidx' : index w' = index w) by (rewrite Hidx; set_solver).
  apply frame_ext; [done | now rewrite index_fillna |].
  intros t p. rewrite cell_fillna, Hidx', Hcol.
  destruct (cell w' t p) eqn:E; [done |].
  case_decide as Hin; [| done]. destruct Hin as [Ht Hp].
  destruct (defaults !! p) as [y|] eqn:Ed; [| done].
  rewrite Hcell in E.
  assert (Hfull : ∀ t', t' ∈ index w → is_Some (cell (fillna defaults w) t' p)).
  { intros t' Ht'. rewrite cell_fillna. destruct (cell w t' p); [eauto |].
    rewrite decide_True, Ed by done. eauto. }
  destruct (Hfull "gas" Hg) as [? Eg], (Hfull t Ht) as [? Et].
  case_decide; congruence.
Qed.

End Frames.

(** ** Derived columns *)

Section Derived.
Implicit Types (w : DataFrame) (t p q : string) (row : gmap string R).

Lemma require_ok ps w : Forall (λ p, p ∈ columns w) ps → require ps w = Ok ().
Proof. intros H. unfold require. now rewrite bool_decide_eq_true_2. Qed.

Lemma cell_assign p s w t q :
  cell (assign p s w) t q =
    match rows w !! t with
    | Some row => if decide (p = q) then s t row else row !! q
    | None => None
    end.
Proof.
  unfold cell, assign. cbn. rewrite map_lookup_imap.
  destruct (rows w !! t) as [row|]; cbn; [apply lookup_set_cell | done].
Qed.

Lemma add_marginal_cost_ok w :
  "VOM" ∈ columns w → "fuel" ∈ columns w → "efficiency" ∈ columns w →
  add_marginal_cost w = Ok (assign "marginal_cost" (λ _ row, marginal_cost_row row) w).
Proof.
  intros Hv Hf He. unfold add_marginal_cost.
  rewrite require_ok by (repeat constructor; done). reflexivity.
Qed.

Lemma marginal_cost_row_value row vom fuel eff :
  row !! "VOM" = Some vom → row !! "fuel" = Some fuel →
  row !! "efficiency" = Some eff → eff ≠ 0%R →
  marginal_cost_row row = Some (vom + fuel / eff)%R.
Proof.
  intros Hv Hf He Hnz. unfold marginal_cost_row. rewrite Hv, Hf, He. cbn.
  destruct (Req_dec_T eff 0); [contradiction | reflexivity].
Qed.

Lemma annuity_series_ok w :
  "discount rate" ∈ columns w → "lifetime" ∈ columns w →
  ∃ s, annuity_series w = Ok (Series s) ∧
    ∀ t row, rows w !! t = Some row →
      s !! t = annuity_np (row !! "discount rate") (row !! "lifetime").
Proof.
  intros Hr Hn. unfold annuity_series. case_decide as He.
  - rewrite decide_True by done.
    exists ∅. split; [done |]. intros t row. rewrite He, lookup_empty. discriminate.
  - rewrite require_ok by (repeat constructor; done). cbn.
    eexists. split; [reflexivity |]. intros t row Hrow.
    rewrite lookup_omap, Hrow. reflexivity.
Qed.

Lemma add_capital_cost_ok s w :
  "FOM" ∈ columns w → "investment" ∈ columns w →
  add_capital_cost (Series s) w
  = Ok (assign "capital_cost" (λ t row, capital_cost_row (s !! t) row) w).
Proof.
  intros Hf Hi. unfold add_capital_cost.
  rewrite require_ok by (repeat constructor; done). reflexivity.
Qed.


(** *** The dispatch notebook *)

Lemma generator_A_ok fc eff tech (p : R) :
  default 1%R (eff !! tech) ≠ 0%R →
  ∃ g, generator_A fc eff (tech, p) = Ok g ∧
    carrier g = tech ∧ p_nom g = p ∧
    efficiency g = default 1%R (eff !! tech) ∧
    marginal_cost g = (default 0 (fc !! tech) / default 1 (eff !! tech))%R.
Proof.
  intros H. unfold generator_A. cbn. rewrite div_ok by done. cbn.
  eexists. split; [reflexivity |]. done.
Qed.

Lemma generators_A_lookup fc eff plants gs i tech (p : R) :
  generators_A fc eff plants = Ok gs → plants !! i = Some (tech, p) →
  ∃ g, gs !! i = Some g ∧ generator_A fc eff (tech, p) = Ok g.
Proof.
  revert gs i. induction plants as [|pl plants IH]; intros gs i H Hi; [done |].
  cbn in H.
  destruct (generator_A fc eff pl) as [g|] eqn:Eg; cbn in H; [| done].
  destruct (generators_A fc eff plants) as [gs'|] eqn:Egs; cbn in H; [| done].
  injection H as <-. destruct i as [|i]; cbn in Hi |- *.
  - injection Hi as ->. eauto.
  - eapply IH; eauto.
Qed.

Lemma generators_A_succeeds fc eff plants :
  Forall (λ plant, default 1%R (eff !! plant.1) ≠ 0%R) plants →
  ∃ gs, generators_A fc eff plants = Ok gs.
Proof.
  induction 1 as [|[tech p] plants Hnz _ [gs IH]]; cbn [generators_A]; [eauto |].
  destruct (generator_A_ok fc eff tech p Hnz) as (g & -> & _). cbn.
  rewrite IH. cbn. eauto.
Qed.

End Derived.

(** ** The code on the notebooks' own numbers *)

Section Samples.
Local Open Scope R_scope.

Lemma pow_nat x (k : nat) : 0 < x → Py.pow x (INR k) = x ^ k.
Proof. intros Hx. unfold Py.pow. now apply Rpower_pow. Qed.

(** [annuity(0.07, 20)], the call of the notebook. *)
Example annuity_7_percent_20_years :
  ∃ a, annuity 0.07 20 = Ok a ∧ Rabs (a - 0.09439) < 0.0001.
Proof.
  exists (annuity_formula 0.07 20). split; [apply annuity_defined; lra |].
  rewrite <- annuity_formula_eq.
  replace 20 with (INR 20) at 1 by (simpl; lra).
  rewrite pow_nat by lra.
  assert (H : 3.8696 < (1 + 0.07) ^ 20 < 3.8697) by (split; lra).
  set (x := (1 + 0.07) ^ 20) in *.
  assert (E : (0.07 / (1 - 1 / x) - 0.09439) * (x - 1)
              = 0.07 * x - 0.09439 * (x - 1)) by (field; lra).
  apply Rabs_def1; apply (Rmult_lt_reg_r (x - 1)); try lra; rewrite E; lra.
Qed.

(** A price per kW and a price per kWh are both rescaled, once. *)
Example rescale_sample :
  Raw.rescale_units
    [ raw_row "OCGT" "investment" 435 "EUR/kW";
      raw_row "battery storage" "investment" 142 "EUR/kWh";
      raw_row "gas" "fuel" 24 "EUR/MWh_th" ]
  = [ raw_row "OCGT" "investment" (435 * 1000) "EUR/MW";
      raw_row "battery storage" "investment" (142 * 1000) "EUR/MWh";
      raw_row "gas" "fuel" 24 "EUR/MWh_th" ].
Proof. reflexivity. Qed.

(** The generators of region A in the dispatch notebook. *)
Example generators_A_sample :
  ∃ gs, generators_A fuel_cost efficiency_table power_plants_A = Ok gs ∧
    marginal_cost <$> gs = [8 / 0.33; 0 / 1; 100 / 0.58; 48 / 0.35].
Proof.
  unfold generators_A, generator_A, power_plants_A. cbn [fst snd].
  change (fuel_cost !! "coal"%string) with (Some 8).
  change (fuel_cost !! "wind"%string) with (Some 0).
  change (fuel_cost !! "gas"%string) with (Some 100).
  change (fuel_cost !! "oil"%string) with (Some 48).
  change (efficiency_table !! "coal"%string) with (Some 0.33).
  change (efficiency_table !! "wind"%string) with (Some 1).
  change (efficiency_table !! "gas"%string) with (Some 0.58).
  change (efficiency_table !! "oil"%string) with (Some 0.35).
  cbv [default from_option Datatypes.id].
  repeat (rewrite div_ok by lra; cbn).
  eexists. split; reflexivity.
Qed.

(** With a discount rate of zero the annuity of the row is NaN, and so is
    its capital cost. *)
Lemma capital_cost_row_zero_rate (row : gmap string R) n :
  row !! "discount rate"%string = Some 0 → row !! "lifetime"%string = Some n →
  capital_cost_row (annuity_np (row !! "discount rate"%string)
                      (row !! "lifetime"%string)) row = None.
Proof.
  intros -> ->. now rewrite (annuity_np_nan 0 n _ (annuity_rate_zero n)).
Qed.

End Samples.

(** * The claims *)

Section Claims.
Local Open Scope R_scope.

(** C1, as the code has it.  At a discount rate of zero the denominator is
    exactly zero, for every lifetime, and the unguarded division raises
    [ZeroDivisionError]; this is so in exact arithmetic and on floats
    alike, whatever the C library's power function computes. *)
Theorem annuity_zero_rate_raises :
  (∀ n, annuity 0 n = Raise ZeroDivisionError) ∧
  (∀ rest n, F64.annuity rest 0%float n = Raise ZeroDivisionError).
Proof.
  split; [apply annuity_rate_zero |].
  intros rest n. now apply annuity_f64_lost_rate.
Qed.

(** C1 as stated is false at lifetime 25: the call with rate 0 raises and
    does not return 1/25. *)
Lemma annuity_zero_rate_counterexample :
  annuity 0 25 = Raise ZeroDivisionError ∧ annuity 0 25 ≠ Ok (1 / 25).
Proof.
  pose proof (annuity_rate_zero 25) as H. split; [exact H |].
  rewrite H. discriminate.
Qed.




(** C2, as the code has it.  Each stage of the preprocessing cell is
    idempotent on the table form it works on: rescaling a raw table a
    second time changes no value and no unit (no unit still mentions
    "/kW"), filling twice is filling once, propagating twice is
    propagating once; on the output of the cell for a raw table that names
    OCGT and CCGT, filling and propagating once more change nothing.  The
    cell as a whole turns the raw table into a wide table without unit
    column and cannot be run on that: it raises [AttributeError]. *)
Theorem normalizer_stages_idempotent :
  (∀ t, Raw.rescale_units (Raw.rescale_units t) = Raw.rescale_units t) ∧
  (∀ d w, fillna d (fillna d w) = fillna d w) ∧
  (∀ w w', propagate w = Ok w' → propagate w' = Ok w') ∧
  (∀ t w, "OCGT" ∈ (Raw.technology <$> t) → "CCGT" ∈ (Raw.technology <$> t) →
     cost_normalizer (Long t) = Ok w →
     propagate (fillna defaults w) = Ok w) ∧
  (∀ w, cost_normalizer (Wide w) = Raise AttributeError).
Proof.
  split; [apply rescale_units_idem |].
  split; [apply fillna_idem |].
  split; [apply propagate_idem |].
  split; [| reflexivity].
  intros t w Ho Hc H. unfold cost_normalizer in H.
  destruct (unstack (Raw.rescale_units t)) as [w0|] eqn:Eu; [| discriminate].
  change (propagate (fillna defaults w0) = Ok w) in H.
  apply unstack_inv in Eu as [_ Hidx].
  rewrite technologies_rescale_units in Hidx.
  rewrite (fillna_after_propagate w0 w); try done.
  - now apply propagate_idem with (fillna defaults w0).
  - rewrite Hidx. now apply elem_of_list_to_set.
  - rewrite Hidx. now apply elem_of_list_to_set.
Qed.

Lemma normalizer_stages_idempotent_witness :
  propagate (fillna defaults sample_costs) = Ok sample_costs.
Proof.
  assert (Ho : "OCGT" ∈ (Raw.technology <$> sample_raw)) by (cbn; set_solver).
  assert (Hc : "CCGT" ∈ (Raw.technology <$> sample_raw)) by (cbn; set_solver).
  assert (H : cost_normalizer (Long sample_raw) = Ok sample_costs)
    by (vm_compute; reflexivity).
  exact (proj1 (proj2 (proj2 (proj2 normalizer_stages_idempotent))) _ _ Ho Hc H).
Defined.

(** C2 as stated is false on [sample_raw]: the first run returns
    [sample_costs], the second run, on that output, raises. *)
Lemma normalizer_rerun_counterexample :
  cost_normalizer (Long sample_raw) = Ok sample_costs ∧
  cost_normalizer (Wide sample_costs) = Raise AttributeError ∧
  cost_normalizer (Wide sample_costs) ≠ Ok sample_costs.
Proof.
  split; [vm_compute; reflexivity |]. split; [reflexivity | discriminate].
Qed.

(** C3, as the code has it.  The declared defaults are the eight listed
    values; filling keeps every cell that holds a number (an efficiency of
    0.42 stays 0.42) and puts the declared default into an empty cell of a
    column that the table has.  It adds no column: a parameter that no
    technology of the table has stays missing for all of them, default or
    not.  The labels stay as they are. *)
Theorem fillna_defaults_spec :
  (defaults !! "FOM" = Some 0 ∧ defaults !! "VOM" = Some 0 ∧
   defaults !! "efficiency" = Some 1 ∧ defaults !! "fuel" = Some 0 ∧
   defaults !! "investment" = Some 0 ∧ defaults !! "lifetime" = Some 25 ∧
   defaults !! "CO2 intensity" = Some 0 ∧ defaults !! "discount rate" = Some 0.07 ∧
   dom defaults = list_to_set ["FOM"; "VOM"; "efficiency"; "fuel"; "investment";
                               "lifetime"; "CO2 intensity"; "discount rate"]) ∧
  (∀ w t p x, cell w t p = Some x → cell (fillna defaults w) t p = Some x) ∧
  (∀ w t p, cell w t p = None → t ∈ index w → p ∈ columns w →
     cell (fillna defaults w) t p = defaults !! p) ∧
  (∀ w t p, cell w t p = None → p ∉ columns w →
     cell (fillna defaults w) t p = None) ∧
  (∀ w, index (fillna defaults w) = index w ∧ columns (fillna defaults w) = columns w).
Proof.
  split; [repeat split; reflexivity |].
  split; [| split; [| split]].
  - intros w t p x H. now rewrite cell_fillna, H.
  - intros w t p H Ht Hp. rewrite cell_fillna, H. now rewrite decide_True.
  - intros w t p H Hp. rewrite cell_fillna, H. rewrite decide_False; [done | tauto].
  - intros w. split; [apply index_fillna | reflexivity].
Qed.

Lemma fillna_defaults_spec_witness :
  cell (fillna defaults no_gas) "CCGT" "efficiency" = Some 0.42 ∧
  cell (fillna defaults no_gas) "CCGT" "fuel" = Some 0 ∧
  cell (fillna defaults no_gas) "CCGT" "lifetime" = None.
Proof.
  split; [| split].
  - apply (proj1 (proj2 fillna_defaults_spec)). reflexivity.
  - apply (proj1 (proj2 (proj2 fillna_defaults_spec)) no_gas "CCGT"%string "fuel"%string);
      [reflexivity | apply elem_of_dom; eexists; reflexivity | reflexivity].
  - apply (proj1 (proj2 (proj2 (proj2 fillna_defaults_spec)))); [reflexivity |].
    cbn. set_solver.
Defined.

(** C3 as stated is false on [no_gas]: OCGT has no lifetime there, the
    declared default is 25, and after the filling the lifetime is still
    missing, because the table has no such column. *)
Lemma fillna_missing_column_counterexample :
  ("OCGT" ∈ index no_gas) ∧
  cell no_gas "OCGT" "lifetime" = None ∧
  defaults !! "lifetime" = Some 25 ∧
  cell (fillna defaults no_gas) "OCGT" "lifetime" = None ∧
  cell (fillna defaults no_gas) "OCGT" "lifetime" ≠ Some 25.
Proof.
  assert (H : cell (fillna defaults no_gas) "OCGT" "lifetime" = None).
  { rewrite cell_fillna. cbn. rewrite decide_False; [done |].
    intros [_ Hc]. revert Hc. cbn. set_solver. }
  split; [apply elem_of_dom; eexists; reflexivity |].
  split; [reflexivity |]. split; [reflexivity |]. split; [exact H |].
  rewrite H. discriminate.
Qed.

(** C4.  With a positive efficiency the marginal-cost column holds
    [VOM + fuel / efficiency]; a row with twice the fuel cost has twice the
    fuel term [fuel / efficiency] on top of the same variable cost.  In the
    dispatch notebook, which has no variable cost, every generator that
    the loop adds gets [fuel / efficiency], and twice that for twice the
    fuel cost. *)
Theorem marginal_cost_spec :
  (∀ w, "VOM" ∈ columns w → "fuel" ∈ columns w → "efficiency" ∈ columns w →
     ∃ w', add_marginal_cost w = Ok w' ∧
       ∀ t row vom fuel eff,
         rows w !! t = Some row → row !! "VOM" = Some vom →
         row !! "fuel" = Some fuel → row !! "efficiency" = Some eff → 0 < eff →
         cell w' t "marginal_cost" = Some (vom + fuel / eff)) ∧
  (∀ (row : gmap string R) vom fuel eff,
     row !! "VOM" = Some vom → row !! "fuel" = Some fuel →
     row !! "efficiency" = Some eff → 0 < eff →
     marginal_cost_row row = Some (vom + fuel / eff) ∧
     marginal_cost_row (<["fuel" := 2 * fuel]> row) = Some (vom + 2 * (fuel / eff))) ∧
  (∀ (fc eff : gmap string R) plants,
     Forall (λ plant, 0 < default 1 (eff !! plant.1)) plants →
     ∃ gs, generators_A fc eff plants = Ok gs ∧
       ∀ i tech (p : R), plants !! i = Some (tech, p) →
         ∃ g, gs !! i = Some g ∧ carrier g = tech ∧
           marginal_cost g = default 0 (fc !! tech) / default 1 (eff !! tech)) ∧
  (∀ (fc eff : gmap string R) tech (p f : R),
     fc !! tech = Some f → 0 < default 1 (eff !! tech) →
     ∃ g g2,
       generator_A fc eff (tech, p) = Ok g ∧
       generator_A (<[tech := 2 * f]> fc) eff (tech, p) = Ok g2 ∧
       marginal_cost g = f / default 1 (eff !! tech) ∧
       marginal_cost g2 = 2 * marginal_cost g).
Proof.
  split; [| split; [| split]].
  - intros w Hv Hf He. eexists. split; [now apply add_marginal_cost_ok |].
    intros t row vom fuel eff Hrow Hvom Hfuel Heff Hpos.
    rewrite cell_assign, Hrow, decide_True by done.
    apply marginal_cost_row_value; try done. lra.
  - intros row vom fuel eff Hvom Hfuel Heff Hpos. split.
    + apply marginal_cost_row_value; try done. lra.
    + rewrite (marginal_cost_row_value _ vom (2 * fuel) eff).
      * f_equal. field. lra.
      * now rewrite lookup_insert_ne.
      * apply lookup_insert_eq.
      * now rewrite lookup_insert_ne.
      * lra.
  - intros fc eff plants Hpos.
    destruct (generators_A_succeeds fc eff plants) as [gs Hgs].
    { eapply Forall_impl; [exact Hpos |]. cbn. intros plant H. lra. }
    exists gs. split; [exact Hgs |]. intros i tech p Hi.
    destruct (generators_A_lookup _ _ _ _ _ _ _ Hgs Hi) as (g & Hg & Hcall).
    exists g. split; [exact Hg |].
    destruct (generator_A_ok fc eff tech p) as (g' & Hg' & Hc & _ & _ & Hmc).
    { rewrite Forall_lookup in Hpos. specialize (Hpos _ _ Hi). cbn in Hpos. lra. }
    rewrite Hg' in Hcall. injection Hcall as <-. done.
  - intros fc eff tech p f Hf Hpos.
    destruct (generator_A_ok fc eff tech p) as (g & Hg & _ & _ & _ & Hmc); [lra |].
    destruct (generator_A_ok (<[tech := 2 * f]> fc) eff tech p)
      as (g2 & Hg2 & _ & _ & _ & Hmc2); [lra |].
    exists g, g2. rewrite Hf in Hmc. rewrite lookup_insert_eq in Hmc2. cbn in *.
    repeat split; try done. rewrite Hmc2, Hmc. field. lra.
Qed.

Lemma marginal_cost_spec_witness :
  ∃ g g2,
    generator_A fuel_cost efficiency_table ("gas"%string, 8000) = Ok g ∧
    generator_A (<["gas"%string := 2 * 100]> fuel_cost) efficiency_table
      ("gas"%string, 8000) = Ok g2 ∧
    marginal_cost g = 100 / default 1 (efficiency_table !! "gas"%string) ∧
    marginal_cost g2 = 2 * marginal_cost g.
Proof.
  assert (Hf : fuel_cost !! "gas"%string = Some 100) by reflexivity.
  assert (He : 0 < default 1 (efficiency_table !! "gas"%string)).
  { change (0 < 0.58). lra. }
  exact (proj2 (proj2 (proj2 marginal_cost_spec))
           fuel_cost efficiency_table _ 8000 _ Hf He).
Defined.



(** C6.  On a table with a gas row and the two columns the propagation
    succeeds and stores, in the fuel cost and the CO2 intensity of OCGT and
    CCGT, the gas values of that moment.  An assignment to the gas row
    afterwards changes the gas cell it names and nothing in those rows:
    after any number of such assignments the four cells still hold the gas
    values that were copied. *)
Theorem propagated_copies_independent :
  ∀ w, "gas" ∈ index w → "fuel" ∈ columns w → "CO2 intensity" ∈ columns w →
  ∃ w', propagate w = Ok w' ∧
    ∀ t q, t = "OCGT"%string ∨ t = "CCGT"%string →
           q = "fuel"%string ∨ q = "CO2 intensity"%string →
      cell w' t q = cell w "gas" q ∧
      (∀ x, cell (at_set w' "gas" q x) "gas" q = x) ∧
      (∀ edits, cell (edit_gas w' edits) t q = cell w "gas" q).
Proof.
  intros w Hg Hf Hc.
  destruct (propagate_succeeds w Hg Hf Hc) as [w' H]. exists w'.
  split; [exact H |]. intros t q Ht Hq.
  destruct (propagate_effect _ _ H) as (_ & _ & _ & _ & _ & Hcell).
  assert (Hcopy : cell w' t q = cell w "gas" q).
  { rewrite Hcell, decide_True; [done | split; done]. }
  split; [exact Hcopy |]. split.
  - intros x. now rewrite cell_at_set, decide_True.
  - intros edits. rewrite <- Hcopy. clear H Hcell Hcopy. revert w'.
    unfold edit_gas. induction edits as [|e edits IH]; intros w'; [reflexivity |].
    cbn [foldl]. rewrite IH, cell_at_set, decide_False; [done |].
    intros [<- _]. destruct Ht; discriminate.
Qed.

Lemma propagated_copies_independent_witness :
  ∃ w', propagate (fillna defaults sample_wide) = Ok w' ∧
    cell w' "OCGT" "fuel" = Some 24 ∧
    cell (at_set w' "gas" "fuel" (Some 99)) "gas" "fuel" = Some 99 ∧
    cell (edit_gas w' [("fuel"%string, Some 99); ("CO2 intensity"%string, None)])
      "OCGT" "fuel" = Some 24.
Proof.
  destruct (propagated_copies_independent (fillna defaults sample_wide))
    as (w' & H & Hind);
    [rewrite index_fillna; apply elem_of_dom; eexists; reflexivity
    | reflexivity | reflexivity |].
  exists w'. split; [exact H |].
  destruct (Hind "OCGT"%string "fuel"%string) as (Hc & Hset & Hed);
    [now left | now left |].
  split; [rewrite Hc; reflexivity |].
  split; [apply Hset |]. rewrite Hed. reflexivity.
Defined.




(** C10.  On a table with gas, OCGT and CCGT rows (and the two columns)
    propagation succeeds, and afterwards the fuel cost and CO2 intensity of
    OCGT and CCGT are those of the gas row, whatever the two rows held
    before; the gas row keeps its values. *)
Theorem propagate_overwrites :
  ∀ w, "gas" ∈ index w → "OCGT" ∈ index w → "CCGT" ∈ index w →
       "fuel" ∈ columns w → "CO2 intensity" ∈ columns w →
  ∃ w', propagate w = Ok w' ∧
    cell w' "OCGT" "fuel" = cell w "gas" "fuel" ∧
    cell w' "CCGT" "fuel" = cell w "gas" "fuel" ∧
    cell w' "OCGT" "CO2 intensity" = cell w "gas" "CO2 intensity" ∧
    cell w' "CCGT" "CO2 intensity" = cell w "gas" "CO2 intensity" ∧
    cell w' "gas" "fuel" = cell w "gas" "fuel" ∧
    cell w' "gas" "CO2 intensity" = cell w "gas" "CO2 intensity".
Proof.
  intros w Hg _ _ Hf Hc.
  destruct (propagate_succeeds w Hg Hf Hc) as [w' H]. exists w'.
  split; [exact H |].
  destruct (propagate_effect _ _ H) as (_ & _ & _ & _ & _ & Hcell).
  rewrite !Hcell.
  rewrite !(decide_False (P := borrowed "gas" _)) by apply not_borrowed_gas.
  rewrite !decide_True by (split; auto). done.
Qed.

Lemma propagate_overwrites_witness :
  cell sample_wide "OCGT" "fuel" = Some 30 ∧
  ∃ w', propagate sample_wide = Ok w' ∧ cell w' "OCGT" "fuel" = Some 24.
Proof.
  split; [reflexivity |].
  destruct (propagate_overwrites sample_wide) as (w' & H & Ho & _);
    [apply elem_of_dom; eexists; reflexivity .. | reflexivity | reflexivity |].
  exists w'. split; [exact H |]. rewrite Ho. reflexivity.
Defined.

End Claims.

(** * Further properties of the notebooks' code *)

(** ** The heat pump's coefficient of performance *)

Section HeatPump.
Local Open Scope R_scope.

Lemma cop_gt_1 t_source t_sink : 1 < cop t_source t_sink.
Proof.
  unfold cop. cbn zeta. set (d := t_sink - t_source).
  assert (H : 0 <= (0.000630 * d - 0.0605) ^ 2) by apply pow2_ge_0.
  cbn [pow] in *. nra.
Qed.

(** X19.  Whatever the two temperatures, the coefficient of performance is above
    one: a heat pump never delivers less heat than the electricity it
    takes, and so always beats the resistive heater of efficiency 0.9.  On
    a temperature series the result has the same length, a number above
    one for every temperature and NaN for every NaN. *)
Theorem cop_above_one :
  (∀ t_source t_sink, 1 < cop t_source t_sink) ∧
  (∀ temp, length (cop_series temp) = length temp ∧
     ∀ i, match temp !! i with
          | Some (Some t) => ∃ c, cop_series temp !! i = Some (Some c) ∧ 1 < c
          | Some None => cop_series temp !! i = Some None
          | None => cop_series temp !! i = None
          end).
Proof.
  split; [apply cop_gt_1 |]. intros temp. unfold cop_series.
  split; [apply length_fmap |]. intros i. rewrite list_lookup_fmap.
  destruct (temp !! i) as [[t|]|]; cbn; [| done | done].
  eexists. split; [reflexivity | apply cop_gt_1].
Qed.

End HeatPump.

(** ** Slices *)

Section Slices.
Context {A : Type}.
Implicit Types (l : list A) (step skip i : nat).

Lemma stride_from_lookup step skip l i :
  0 < step → skip ≤ step - 1 →
  stride_from step skip l !! i = l !! (skip + step * i).
Proof.
  intros Hstep. revert skip i.
  induction l as [|x l IH]; intros skip i Hs; [done |].
  destruct skip as [|k]; cbn [stride_from].
  - destruct i as [|i].
    + now rewrite Nat.mul_0_r.
    + cbn [lookup list_lookup]. rewrite IH by lia.
      replace (0 + step * S i) with (S (step - 1 + step * i)) by lia. done.
  - rewrite IH by lia. done.
Qed.

Lemma stride_from_length step skip l :
  skip ≤ step - 1 → 0 < step →
  length (stride_from step skip l) = (length l + (step - 1) - skip) / step.
Proof.
  revert skip. induction l as [|x l IH]; intros skip Hs Hstep.
  - cbn. symmetry. apply Nat.div_small. lia.
  - destruct skip as [|k]; cbn [stride_from length].
    + rewrite IH by lia.
      replace (S (length l) + (step - 1) - 0) with (length l + 1 * step) by lia.
      rewrite Nat.div_add by lia.
      replace (length l + (step - 1) - (step - 1)) with (length l) by lia. lia.
    + rewrite IH by lia. reflexivity.
Qed.

(** X21.  A slice with a positive step holds, at position [i], the entry that
    stood at position [step * i], and nothing beyond the end of the list: it
    has one entry for every [step] entries, a last incomplete group
    counting too.  A step of zero raises. *)
Theorem stride_spec l :
  stride 0 l = Raise ValueError ∧
  ∀ step, 0 < step →
    ∃ s, stride step l = Ok s ∧
      (∀ i, s !! i = l !! (step * i)) ∧
      length s = (length l + (step - 1)) / step.
Proof.
  split; [reflexivity |]. intros [|k] Hstep; [lia |].
  eexists. split; [reflexivity |]. split.
  - intros i. now rewrite stride_from_lookup by lia.
  - rewrite stride_from_length by lia. f_equal. lia.
Qed.

End Slices.

Lemma stride_spec_witness :
  ∃ s, stride 3 [10; 11; 12; 13; 14; 15; 16] = Ok s ∧
    (∀ i, s !! i = [10; 11; 12; 13; 14; 15; 16] !! (3 * i)) ∧
    length s = (length [10; 11; 12; 13; 14; 15; 16] + (3 - 1)) / 3.
Proof. apply (proj2 (stride_spec [10; 11; 12; 13; 14; 15; 16]) 3). lia. Defined.

(** ** Reshaping and the outcome of the preprocessing cell *)

Section Reshape.
Implicit Types (w : DataFrame) (t : list Raw.Row) (r : Raw.Row).

Lemma cell_inv w tech p x :
  cell w tech p = Some x →
  ∃ row, rows w !! tech = Some row ∧ row !! p = Some x ∧
    ∀ q, cell w tech q = row !! q.
Proof.
  unfold cell. destruct (rows w !! tech) as [row|]; cbn; [| done]. eauto.
Qed.

Lemma lookup_put r (m : gmap string (gmap string R)) tech p :
  (put r m !! tech ≫= (.!! p))
  = if decide (Raw.key r = (tech, p)) then Raw.value r else m !! tech ≫= (.!! p).
Proof.
  unfold put, Raw.key. rewrite lookup_insert.
  destruct (decide (Raw.technology r = tech)) as [<-|Ht]; cbn.
  - rewrite lookup_set_cell.
    destruct (decide (Raw.parameter r = p)) as [<-|Hp].
    + now rewrite decide_True.
    + rewrite decide_False by congruence.
      now destruct (m !! Raw.technology r).
  - rewrite decide_False by congruence. done.
Qed.

Lemma lookup_foldr_put_elem t r :
  NoDup (Raw.key <$> t) → r ∈ t →
  (foldr put ∅ t !! Raw.technology r ≫= (.!! Raw.parameter r)) = Raw.value r.
Proof.
  induction t as [|r0 t IH]; intros Hnd Hr; [by apply elem_of_nil in Hr |].
  rewrite fmap_cons in Hnd. apply NoDup_cons in Hnd as [Hfresh Hnd].
  cbn [foldr]. rewrite lookup_put.
  apply elem_of_cons in Hr as [->|Hr].
  - now rewrite decide_True.
  - rewrite decide_False; [now apply IH |].
    intros E. apply Hfresh. rewrite E.
    change (Raw.key r ∈ Raw.key <$> t). now apply list_elem_of_fmap_2.
Qed.

Lemma lookup_foldr_put_other t tech p :
  (tech, p) ∉ (Raw.key <$> t) →
  (foldr put ∅ t !! tech ≫= (.!! p)) = None.
Proof.
  induction t as [|r0 t IH]; intros Hk.
  - cbn. now rewrite lookup_empty.
  - rewrite fmap_cons in Hk. apply not_elem_of_cons in Hk as [Hne Hk].
    cbn [foldr]. rewrite lookup_put, decide_False by congruence. now apply IH.
Qed.

(** X1.  Reshaping loses nothing and invents nothing.  When no (technology,
    parameter) pair occurs twice, the wide table has the technologies as
    index, the parameters as columns, the value of every raw row in the
    cell of its pair, and NaN in every cell that no row names.  A repeated
    pair makes the reshaping raise [ValueError]. *)
Theorem unstack_cells t :
  (¬ NoDup (Raw.key <$> t) → unstack t = Raise ValueError) ∧
  (NoDup (Raw.key <$> t) →
     ∃ w, unstack t = Ok w ∧
       index w = list_to_set (Raw.technology <$> t) ∧
       columns w = list_to_set (Raw.parameter <$> t) ∧
       (∀ r, r ∈ t → cell w (Raw.technology r) (Raw.parameter r) = Raw.value r) ∧
       (∀ tech p, (tech, p) ∉ (Raw.key <$> t) → cell w tech p = None)).
Proof.
  split; intros Hnd; unfold unstack.
  - now rewrite bool_decide_eq_false_2.
  - rewrite bool_decide_eq_true_2 by done. eexists. split; [reflexivity |].
    split; [apply dom_foldr_put |]. split; [reflexivity |].
    split.
    + intros r Hr. now apply lookup_foldr_put_elem.
    + intros tech p Hk. now apply lookup_foldr_put_other.
Qed.

Lemma unstack_cells_witness :
  ∃ w, unstack (Raw.rescale_units sample_raw) = Ok w ∧
    cell w "OCGT" "investment" = Some (435 * 1000)%R ∧
    cell w "OCGT" "efficiency" = None.
Proof.
  assert (Hnd : NoDup (Raw.key <$> Raw.rescale_units sample_raw)).
  { apply (bool_decide_unpack _). vm_compute. exact I. }
  destruct (proj2 (unstack_cells _) Hnd) as (w & Hw & _ & _ & Hin & Hout).
  exists w. split; [exact Hw |]. split.
  - apply (Hin (raw_row "OCGT" "investment" (435 * 1000) "EUR/MW")).
    cbn. set_solver.
  - apply Hout. cbn. set_solver.
Defined.

(** X2.  What one pass of the rescaling does to each row: the table keeps its
    length, every row keeps its place, its (technology, parameter) pair and
    its source, and ends with a unit that does not mention "/kW"; a row
    whose unit mentioned it has its value multiplied by 1000, any other row
    is returned as it was. *)
Theorem rescale_units_rows t :
  length (Raw.rescale_units t) = length t ∧
  ∀ i r, t !! i = Some r →
    ∃ r', Raw.rescale_units t !! i = Some r' ∧
      Raw.key r' = Raw.key r ∧ Raw.source r' = Raw.source r ∧
      Str.contains "/kW" (Raw.unit r') = false ∧
      if Str.contains "/kW" (Raw.unit r)
      then Raw.value r' = (λ x, x * 1000)%R <$> Raw.value r
      else r' = r.
Proof.
  unfold Raw.rescale_units. split; [now rewrite !length_fmap |].
  intros i r Hr. rewrite !list_lookup_fmap, Hr. cbn.
  eexists. split; [reflexivity |].
  split; [apply key_rescale_row |].
  unfold Raw.scale_row.
  destruct (Str.contains "/kW" (Raw.unit r)) eqn:Hc; cbn.
  - split; [done |]. split; [apply replace_kW_clean | done].
  - split; [done |]. split; [apply replace_kW_clean |].
    unfold Raw.rename_row. rewrite replace_absent by done. now destruct r.
Qed.

Lemma rescale_units_rows_witness :
  ∃ r', Raw.rescale_units sample_raw !! 1 = Some r' ∧
    Raw.key r' = ("CCGT", "investment") ∧ Raw.source r' = "" ∧
    Str.contains "/kW" (Raw.unit r') = false ∧
    Raw.value r' = Some (830 * 1000)%R.
Proof.
  apply (proj2 (rescale_units_rows sample_raw) 1
           (raw_row "CCGT" "investment" 830 "EUR/kW")).
  reflexivity.
Defined.

End Reshape.

(** ** Item access and propagation as a whole *)

Section Items.
Implicit Types (w : DataFrame) (t p q : string) (v : option R).

(** X6.  Writing a cell and reading it back gives the value written, whether or
    not the labels existed before; the write adds the labels if need be and
    changes no other cell. *)
Theorem at_set_then_get w t p v :
  at_get (at_set w t p v) t p = Ok v ∧
  index (at_set w t p v) = {[t]} ∪ index w ∧
  columns (at_set w t p v) = columns w ∪ {[p]} ∧
  ∀ t' q, (t', q) ≠ (t, p) → cell (at_set w t p v) t' q = cell w t' q.
Proof.
  split; [| split; [apply index_at_set | split; [reflexivity |]]].
  - rewrite at_get_cell.
    + now rewrite cell_at_set, decide_True.
    + rewrite index_at_set. set_solver.
    + cbn. set_solver.
  - intros t' q Hne. rewrite cell_at_set, decide_False; [done |].
    intros [-> ->]. now apply Hne.
Qed.

Lemma at_set_then_get_witness :
  cell (at_set no_gas "gas" "fuel" (Some 24%R)) "OCGT" "fuel" = cell no_gas "OCGT" "fuel".
Proof.
  apply (proj2 (proj2 (proj2 (at_set_then_get no_gas "gas" "fuel" (Some 24%R))))).
  discriminate.
Defined.

(** X4.  Propagation succeeds exactly when the table has a gas row and the two
    columns; otherwise it raises [KeyError], and never anything else. *)
Theorem propagate_outcome w :
  ("gas" ∈ index w ∧ "fuel" ∈ columns w ∧ "CO2 intensity" ∈ columns w →
     ∃ w', propagate w = Ok w') ∧
  (¬ ("gas" ∈ index w ∧ "fuel" ∈ columns w ∧ "CO2 intensity" ∈ columns w) →
     propagate w = Raise KeyError).
Proof.
  split.
  - intros (Hg & Hf & Hc). now apply propagate_succeeds.
  - intros Hnot. unfold propagate.
    destruct (decide ("gas" ∈ index w)) as [Hg|Hg];
      [| now rewrite at_get_no_row].
    destruct (decide ("fuel" ∈ columns w)) as [Hf|Hf];
      [| now rewrite at_get_no_column].
    assert (Hc : "CO2 intensity" ∉ columns w) by tauto.
    do 2 (rewrite at_get_cell by (rewrite ?index_at_set; cbn; set_solver); cbn).
    rewrite at_get_no_column; [done |]. cbn. set_solver.
Qed.

Lemma propagate_outcome_witness :
  (∃ w', propagate sample_wide = Ok w') ∧
  propagate (frame_of ["efficiency"] [("gas", [("efficiency", 1%R)])]) = Raise KeyError.
Proof.
  split.
  - apply (proj1 (propagate_outcome sample_wide)).
    split; [apply elem_of_dom; eexists; reflexivity |]. split; reflexivity.
  - apply (proj2 (propagate_outcome _)). intros (_ & Hf & _). revert Hf.
    cbn. set_solver.
Defined.

(** X5.  Propagation writes four cells and nothing else: the columns stay, the
    index gains at most the OCGT and CCGT rows, and every cell other than
    the fuel cost and the CO2 intensity of OCGT and CCGT is as before. *)
Theorem propagate_frame w w' :
  propagate w = Ok w' →
  columns w' = columns w ∧
  index w' = {["OCGT"; "CCGT"]} ∪ index w ∧
  ∀ t p, ¬ borrowed t p → cell w' t p = cell w t p.
Proof.
  intros H. destruct (propagate_effect _ _ H) as (_ & _ & _ & Hcol & Hidx & Hcell).
  split; [exact Hcol |]. split; [exact Hidx |].
  intros t p Hb. now rewrite Hcell, decide_False.
Qed.

Lemma propagate_frame_witness :
  cell sample_costs "OCGT" "investment"
  = cell (fillna defaults sample_wide) "OCGT" "investment".
Proof.
  assert (H : propagate (fillna defaults sample_wide) = Ok sample_costs)
    by (vm_compute; reflexivity).
  apply (proj2 (proj2 (propagate_frame _ _ H))).
  intros [_ [Hp|Hp]]; discriminate Hp.
Defined.





End Items.

(** ** Derived costs across the cells *)

Section Costs.
Local Open Scope R_scope.
Implicit Types (w : DataFrame) (t p q : string).

Lemma add_marginal_cost_cells w :
  "VOM" ∈ columns w → "fuel" ∈ columns w → "efficiency" ∈ columns w →
  ∃ w', add_marginal_cost w = Ok w' ∧
    index w' = index w ∧ columns w' = columns w ∪ {["marginal_cost"]} ∧
    (∀ t q, q ≠ "marginal_cost" → cell w' t q = cell w t q) ∧
    (∀ t, t ∈ index w →
       cell w' t "marginal_cost"
       = Np.add (cell w t "VOM") (Np.div (cell w t "fuel") (cell w t "efficiency"))).
Proof.
  intros Hv Hf He. eexists. split; [now apply add_marginal_cost_ok |].
  split; [| split; [reflexivity | split]].
  - unfold index, assign. cbn. apply set_eq. intros t.
    rewrite !elem_of_dom, map_lookup_imap.
    destruct (rows w !! t); cbn; split; intros [? ?]; eauto; done.
  - intros t q Hq. rewrite cell_assign. unfold cell.
    destruct (rows w !! t); cbn; [| done]. now rewrite decide_False.
  - intros t Ht. unfold index in Ht. apply elem_of_dom in Ht as [row Hrow].
    rewrite cell_assign. unfold cell.
    rewrite Hrow. cbn. now rewrite decide_True.
Qed.

(** X9.  The marginal-cost cell fails only for want of a column: without one of
    the three columns it raises [KeyError]; with them it never raises, adds
    one column and leaves every other cell and the index alone, and an
    efficiency of zero gives a cell that holds no number instead of an
    exception. *)
Theorem add_marginal_cost_outcome w :
  (¬ ("VOM" ∈ columns w ∧ "fuel" ∈ columns w ∧ "efficiency" ∈ columns w) →
     add_marginal_cost w = Raise KeyError) ∧
  ("VOM" ∈ columns w ∧ "fuel" ∈ columns w ∧ "efficiency" ∈ columns w →
     ∃ w', add_marginal_cost w = Ok w' ∧
       index w' = index w ∧ columns w' = columns w ∪ {["marginal_cost"]} ∧
       (∀ t q, q ≠ "marginal_cost"%string → cell w' t q = cell w t q) ∧
       (∀ t, cell w t "efficiency" = Some 0 → cell w' t "marginal_cost" = None)).
Proof.
  split.
  - intros Hnot. unfold add_marginal_cost, require.
    rewrite bool_decide_eq_false_2; [done |].
    intros H. apply Hnot. rewrite !Forall_cons in H. tauto.
  - intros (Hv & Hf & He).
    destruct (add_marginal_cost_cells w Hv Hf He) as (w' & Hw & Hi & Hc & Hframe & Hmc).
    exists w'. do 4 (split; [done |]).
    intros t Heff. rewrite Hmc.
    + rewrite Heff. destruct (cell w t "VOM"), (cell w t "fuel"); cbn; try done.
      destruct (Req_dec_T 0 0); [done | contradiction].
    + unfold index. apply cell_inv in Heff as (row & Hrow & _).
      now apply elem_of_dom_2 in Hrow.
Qed.

Lemma add_marginal_cost_outcome_witness :
  add_marginal_cost no_gas = Raise KeyError.
Proof.
  apply (proj1 (add_marginal_cost_outcome no_gas)).
  intros (Hv & _). revert Hv. cbn. set_solver.
Defined.



(** X8.  Why the gas values are propagated: computed after the propagation, the
    marginal cost of OCGT and CCGT is their own variable cost plus the fuel
    cost of gas over their own efficiency. *)
Theorem marginal_cost_after_propagate w w1 :
  propagate w = Ok w1 → "VOM" ∈ columns w → "efficiency" ∈ columns w →
  ∃ w2, add_marginal_cost w1 = Ok w2 ∧
    ∀ t vom fuel eff,
      t = "OCGT"%string ∨ t = "CCGT"%string →
      cell w t "VOM" = Some vom → cell w "gas" "fuel" = Some fuel →
      cell w t "efficiency" = Some eff → eff ≠ 0 →
      cell w2 t "marginal_cost" = Some (vom + fuel / eff).
Proof.
  intros H Hv He.
  destruct (propagate_effect _ _ H) as (_ & Hf & _ & Hcol & Hidx & Hcell).
  destruct (add_marginal_cost_cells w1) as (w2 & Hw & _ & _ & _ & Hmc);
    [now rewrite Hcol .. |].
  exists w2. split; [exact Hw |].
  intros t vom fuel eff Ht Hvom Hfuel Heff Hnz.
  rewrite Hmc by (rewrite Hidx; set_solver).
  rewrite !Hcell.
  rewrite (decide_False (P := borrowed t "VOM")) by (intros [_ [?|?]]; discriminate).
  rewrite (decide_False (P := borrowed t "efficiency")) by (intros [_ [?|?]]; discriminate).
  rewrite (decide_True (P := borrowed t "fuel")) by (split; auto).
  rewrite Hvom, Hfuel, Heff. cbn.
  destruct (Req_dec_T eff 0); [contradiction | reflexivity].
Qed.

Lemma marginal_cost_after_propagate_witness :
  ∃ w2, add_marginal_cost
          (at_set (at_set sample_costs "OCGT" "VOM" (Some 4.5)) "CCGT" "VOM" (Some 4.2))
        = Ok w2 ∧
    cell w2 "CCGT" "marginal_cost" = Some (4.2 + 24 / 0.58).
Proof.
  set (w := at_set (at_set (fillna defaults sample_wide) "OCGT" "VOM" (Some 4.5))
              "CCGT" "VOM" (Some 4.2)).
  assert (H : propagate w
              = Ok (at_set (at_set sample_costs "OCGT" "VOM" (Some 4.5))
                      "CCGT" "VOM" (Some 4.2)))
    by (vm_compute; reflexivity).
  destruct (marginal_cost_after_propagate w _ H) as (w2 & Hw & Hc);
    [reflexivity .. |].
  exists w2. split; [exact Hw |].
  apply Hc; [now right | reflexivity .. |]. lra.
Defined.

End Costs.

Section Assembly.
Local Open Scope R_scope.
Implicit Types (w : DataFrame) (t p q : string).

Lemma capital_cost_cells w :
  "discount rate" ∈ columns w → "lifetime" ∈ columns w →
  "FOM" ∈ columns w → "investment" ∈ columns w →
  ∃ a w', annuity_series w = Ok a ∧ add_capital_cost a w = Ok w' ∧
    columns w' = columns w ∪ {["capital_cost"]} ∧
    ∀ t, t ∈ index w →
      cell w' t "capital_cost"
      = Np.mul (Np.add (annuity_np (cell w t "discount rate") (cell w t "lifetime"))
                  (Np.div (cell w t "FOM") (Some 100)))
          (cell w t "investment").
Proof.
  intros Hr Hn Hf Hi.
  destruct (annuity_series_ok w Hr Hn) as (s & Ha & Hlook).
  exists (Series s). eexists. split; [exact Ha |].
  split; [now apply add_capital_cost_ok |]. split; [reflexivity |].
  intros t Ht. unfold index in Ht. apply elem_of_dom in Ht as [row Hrow].
  rewrite cell_assign. unfold cell. rewrite Hrow. cbn.
  rewrite decide_True by done. now rewrite (Hlook t row Hrow).
Qed.

(** X10.  A discount rate of zero, or a lifetime of zero, does not stop the
    capital-cost cells: no exception is raised, and the capital cost of
    that technology holds no number (NaN, or an infinity). *)
Theorem capital_cost_degenerate w :
  "discount rate" ∈ columns w → "lifetime" ∈ columns w →
  "FOM" ∈ columns w → "investment" ∈ columns w →
  ∃ a w', annuity_series w = Ok a ∧ add_capital_cost a w = Ok w' ∧
    ∀ t r n,
      cell w t "discount rate" = Some r → cell w t "lifetime" = Some n →
      r = 0 ∨ n = 0 →
      cell w' t "capital_cost" = None.
Proof.
  intros Hr Hn Hf Hi.
  destruct (capital_cost_cells w Hr Hn Hf Hi) as (a & w' & Ha & Hw & _ & Hcc).
  exists a, w'. split; [exact Ha |]. split; [exact Hw |].
  intros t r n Er En Hdeg.
  rewrite Hcc.
  2:{ apply cell_inv in Er as (row & Hrow & _). unfold index.
      now apply elem_of_dom_2 in Hrow. }
  rewrite Er, En.
  assert (Hnan : annuity_np (Some r) (Some n) = None).
  { unfold annuity_np. cbn.
    assert (Hp : Py.pow (1 + r) n = 1).
    { destruct Hdeg as [-> | ->].
      - rewrite Rplus_0_r. apply pow_base_1.
      - unfold Py.pow, Rpower. rewrite Rmult_0_l. apply exp_0. }
    rewrite Hp. destruct (Req_dec_T 1 0); [lra |]. cbn.
    destruct (Req_dec_T (1 - 1 / 1) 0) as [|Hne]; [done |].
    exfalso. apply Hne. lra. }
  now rewrite Hnan.
Qed.

Lemma capital_cost_degenerate_witness :
  ∃ a w',
    annuity_series (at_set sample_full "gas" "discount rate" (Some 0)) = Ok a ∧
    add_capital_cost a (at_set sample_full "gas" "discount rate" (Some 0)) = Ok w' ∧
    cell w' "gas" "capital_cost" = None.
Proof.
  destruct (capital_cost_degenerate
              (at_set sample_full "gas" "discount rate" (Some 0)))
    as (a & w' & Ha & Hw & H); [reflexivity .. |].
  exists a, w'. split; [exact Ha |]. split; [exact Hw |].
  apply (H "gas"%string 0 25); [reflexivity | reflexivity | now left].
Defined.

(** *** Carriers *)

Lemma carrier_emissions_ok w cs :
  "CO2 intensity" ∈ columns w → Forall (λ c, c ∈ index w) cs →
  carrier_emissions w cs = Ok ((λ c, cell w c "CO2 intensity") <$> cs).
Proof.
  intros Hc. induction 1 as [|c cs Hin _ IH]; [reflexivity |].
  cbn [carrier_emissions]. rewrite at_get_cell by done. cbn.
  now rewrite IH.
Qed.

(** X13.  The emission list has one entry per carrier, the CO2 intensity of the
    technology of that name, in the order of the carriers; a carrier that
    is no technology of the cost table makes the cell raise [KeyError]. *)
Theorem carrier_emissions_outcome w cs :
  "CO2 intensity" ∈ columns w →
  (Forall (λ c, c ∈ index w) cs →
     carrier_emissions w cs = Ok ((λ c, cell w c "CO2 intensity") <$> cs)) ∧
  (¬ Forall (λ c, c ∈ index w) cs → carrier_emissions w cs = Raise KeyError).
Proof.
  intros Hc. split; [now apply carrier_emissions_ok |].
  induction cs as [|c cs IH]; intros Hnot.
  - contradiction Hnot. constructor.
  - cbn [carrier_emissions].
    destruct (decide (c ∈ index w)) as [Hin|Hin].
    + rewrite at_get_cell by done. cbn. rewrite IH; [done |].
      intros Hall. apply Hnot. now constructor.
    + now rewrite at_get_no_row.
Qed.

Lemma carrier_emissions_outcome_witness :
  carrier_emissions sample_costs carriers = Raise KeyError.
Proof.
  apply (proj2 (carrier_emissions_outcome sample_costs carriers ltac:(reflexivity))).
  intros H. apply Forall_cons in H as [H _]. revert H.
  unfold index. rewrite elem_of_dom. intros [row Hrow]. discriminate Hrow.
Defined.

(** X14.  The emissions of the OCGT carrier are those of gas: after the
    propagation, the third entry of the emission list is the CO2 intensity
    that the gas row had. *)
Theorem carrier_emissions_after_propagate w w' :
  propagate w = Ok w' → Forall (λ c, c ∈ index w') carriers →
  ∃ vs, carrier_emissions w' carriers = Ok vs ∧
    length vs = 5%nat ∧ vs !! 2%nat = Some (cell w "gas" "CO2 intensity").
Proof.
  intros H Hall.
  destruct (propagate_effect _ _ H) as (_ & _ & Hc & Hcol & _ & Hcell).
  eexists. split; [apply carrier_emissions_ok; [now rewrite Hcol | exact Hall] |].
  split; [reflexivity |]. cbn. f_equal.
  rewrite Hcell, decide_True; [done |]. split; auto.
Qed.

Lemma carrier_emissions_after_propagate_witness :
  ∃ w' vs,
    propagate (at_set sample_assembly "gas" "fuel" (Some 24)) = Ok w' ∧
    carrier_emissions w' carriers = Ok vs ∧
    length vs = 5%nat ∧ vs !! 2%nat = Some (Some 0.2).
Proof.
  set (w := at_set sample_assembly "gas" "fuel" (Some 24)).
  destruct (propagate_succeeds w) as [w' H];
    [apply elem_of_dom; eexists; reflexivity | reflexivity | reflexivity |].
  destruct (propagate_effect _ _ H) as (_ & _ & _ & _ & Hidx & _).
  destruct (carrier_emissions_after_propagate w w' H) as (vs & Hvs & Hlen & H2).
  { rewrite Hidx.
    repeat constructor; apply elem_of_union_r, elem_of_dom; eexists; reflexivity. }
  exists w', vs. split; [exact H |]. split; [exact Hvs |].
  split; [exact Hlen |]. rewrite H2. reflexivity.
Defined.

(** *** Storage units *)

(** X15.  The battery is priced as its inverter plus four hours of storage, the
    hours being its energy-to-power ratio, and charges and discharges with
    the inverter's efficiency; the hydrogen storage is priced as
    electrolysis plus fuel cell plus 336 hours of cavern.  Both calls raise
    [KeyError] when the cost table lacks the first technology they read. *)
Theorem storage_units_spec w :
  "capital_cost" ∈ columns w → "efficiency" ∈ columns w →
  ("battery inverter" ∈ index w → "battery storage" ∈ index w →
     ∃ u, Storage.battery w = Ok u ∧
       Storage.max_hours u = 4 ∧
       Storage.capital_cost u
       = Np.add (cell w "battery inverter" "capital_cost")
           (Np.mul (Some 4) (cell w "battery storage" "capital_cost")) ∧
       Storage.efficiency_store u = Storage.efficiency_dispatch u ∧
       Storage.efficiency_store u = cell w "battery inverter" "efficiency") ∧
  ("electrolysis" ∈ index w → "fuel cell" ∈ index w →
   "hydrogen storage underground" ∈ index w →
     ∃ u, Storage.hydrogen w = Ok u ∧
       Storage.max_hours u = 336 ∧
       Storage.capital_cost u
       = Np.add (Np.add (cell w "electrolysis" "capital_cost")
                   (cell w "fuel cell" "capital_cost"))
           (Np.mul (Some 336)
              (cell w "hydrogen storage underground" "capital_cost")) ∧
       Storage.efficiency_store u = cell w "electrolysis" "efficiency" ∧
       Storage.efficiency_dispatch u = cell w "fuel cell" "efficiency") ∧
  ("battery inverter" ∉ index w → Storage.battery w = Raise KeyError) ∧
  ("electrolysis" ∉ index w → Storage.hydrogen w = Raise KeyError).
Proof.
  intros Hc He. split; [| split; [| split]].
  - intros Hi Hs. unfold Storage.battery.
    repeat (rewrite at_get_cell by assumption; cbn).
    eexists. split; [reflexivity |]. repeat split; reflexivity.
  - intros H1 H2 H3. unfold Storage.hydrogen.
    repeat (rewrite at_get_cell by assumption; cbn).
    eexists. split; [reflexivity |]. repeat split; reflexivity.
  - intros Hi. unfold Storage.battery.
    rewrite (at_get_no_row w "battery inverter" "capital_cost") by done.
    reflexivity.
  - intros Hi. unfold Storage.hydrogen.
    rewrite (at_get_no_row w "electrolysis" "capital_cost") by done.
    reflexivity.
Qed.

Lemma storage_units_spec_witness :
  ∃ u, Storage.battery sample_assembly = Ok u ∧
    Storage.max_hours u = 4 ∧
    Storage.capital_cost u = Some (14000 + 4 * 13000) ∧
    Storage.efficiency_store u = Storage.efficiency_dispatch u ∧
    Storage.efficiency_store u = Some 0.96.
Proof.
  destruct (proj1 (storage_units_spec sample_assembly ltac:(reflexivity) ltac:(reflexivity)))
    as (u & Hu & Hm & Hc & He & Hi).
  - apply elem_of_dom; eexists; reflexivity.
  - apply elem_of_dom; eexists; reflexivity.
  - exists u. split; [exact Hu |]. split; [exact Hm |].
    split; [| split; [exact He | exact Hi]].
    rewrite Hc. reflexivity.
Defined.

End Assembly.

(** ** The dispatch plot *)

Section DispatchPlot.
Local Open Scope R_scope.

Lemma cell_where_cells cond (p : DataFrame) t c :
  cell (where_cells cond p) t c
  = if decide (t ∈ index p ∧ c ∈ columns p)
    then Some (where_or_0 cond (cell p t c)) else None.
Proof.
  unfold cell, where_cells, index. cbn. rewrite lookup_fmap.
  destruct (rows p !! t) as [row|] eqn:E; cbn.
  - rewrite map_lookup_imap, lookup_gset_to_gmap.
    apply elem_of_dom_2 in E.
    destruct (decide (c ∈ columns p)) as [Hc|Hc].
    + rewrite option_guard_True by done. cbn. now rewrite decide_True.
    + rewrite option_guard_False by done. cbn. rewrite decide_False; tauto.
  - apply not_elem_of_dom in E. rewrite decide_False; tauto.
Qed.

(** X16.  The plot splits the energy balance without loss: in every cell of the
    table the supply is the positive part and the withdrawal the negative
    part, at most one of the two is not zero, and together they give back
    the cell (zero for a NaN). *)
Theorem dispatch_split (p : DataFrame) t c :
  t ∈ index p → c ∈ columns p →
  ∃ s d, cell (supply p) t c = Some s ∧ cell (withdrawal p) t c = Some d ∧
    0 <= s ∧ d <= 0 ∧ s * d = 0 ∧ s + d = default 0 (cell p t c).
Proof.
  intros Ht Hc. unfold supply, withdrawal.
  rewrite !cell_where_cells, !decide_True by done.
  eexists _, _. split; [reflexivity |]. split; [reflexivity |].
  unfold where_or_0, gt0, lt0. destruct (cell p t c) as [v|]; cbn.
  - destruct (Rlt_dec 0 v), (Rlt_dec v 0); repeat split; nra.
  - repeat split; lra.
Qed.

Lemma dispatch_split_witness :
  ∃ s d, cell (supply no_gas) "OCGT" "fuel" = Some s ∧
    cell (withdrawal no_gas) "OCGT" "fuel" = Some d ∧
    0 <= s ∧ d <= 0 ∧ s * d = 0 ∧ s + d = default 0 (cell no_gas "OCGT" "fuel").
Proof.
  apply dispatch_split; [apply elem_of_dom; eexists; reflexivity | reflexivity].
Defined.

End DispatchPlot.

(** ** The generator loop as a whole *)

Section Generators.
Local Open Scope R_scope.

Lemma generator_A_zero fc eff tech (p : R) :
  default 1 (eff !! tech) = 0 →
  generator_A fc eff (tech, p) = Raise ZeroDivisionError.
Proof. intros H. unfold generator_A. cbn. rewrite H, div_zero. reflexivity. Qed.

(** X17.  The loop adds one generator per plant, in the order of the plants, on
    bus A, named "A " and the technology, with the plant's capacity; it
    raises [ZeroDivisionError] exactly when some plant's technology has
    the efficiency zero. *)
Theorem generators_A_outcome (fc eff : gmap string R) plants :
  (Forall (λ plant, default 1 (eff !! plant.1) ≠ 0) plants →
     ∃ gs, generators_A fc eff plants = Ok gs ∧
       name <$> gs = (λ plant, "A " +:+ plant.1) <$> plants ∧
       carrier <$> gs = fst <$> plants ∧
       p_nom <$> gs = snd <$> plants ∧
       Forall (λ g, bus g = "A"%string) gs) ∧
  (¬ Forall (λ plant, default 1 (eff !! plant.1) ≠ 0) plants →
     generators_A fc eff plants = Raise ZeroDivisionError).
Proof.
  split.
  - induction 1 as [|[tech p] plants Hnz _ (gs & Hgs & Hn & Hc & Hp & Hb)].
    + exists []. repeat split; constructor.
    + cbn [generators_A]. unfold generator_A. cbn in *.
      rewrite div_ok by done. cbn. rewrite Hgs. cbn.
      eexists. split; [reflexivity |]. cbn.
      rewrite Hn, Hc, Hp. repeat split. now constructor.
  - induction plants as [|[tech p] plants IH]; intros Hnot.
    + contradiction Hnot. constructor.
    + cbn [generators_A].
      destruct (Req_dec_T (default 1 (eff !! tech)) 0) as [Hz|Hnz].
      * now rewrite generator_A_zero.
      * destruct (generator_A_ok fc eff tech p Hnz) as (g & -> & _). cbn.
        rewrite IH; [done |]. intros H. apply Hnot. now constructor.
Qed.

Lemma generators_A_outcome_witness :
  generators_A fuel_cost (<["gas" := 0]> efficiency_table) power_plants_A
  = Raise ZeroDivisionError.
Proof.
  apply (proj2 (generators_A_outcome _ _ _)).
  intros H. unfold power_plants_A in H.
  apply Forall_cons in H as [_ H]. apply Forall_cons in H as [_ H].
  apply Forall_cons in H as [H _]. apply H. reflexivity.
Defined.

(** X18.  A technology that the efficiency table does not list is taken to
    convert without loss: its generator has the efficiency 1 and the fuel
    cost as marginal cost, which is 0 when the fuel-cost table does not
    list it either. *)
Theorem generator_A_unlisted (fc eff : gmap string R) tech (p : R) :
  eff !! tech = None →
  ∃ g, generator_A fc eff (tech, p) = Ok g ∧
    efficiency g = 1 ∧
    marginal_cost g = default 0 (fc !! tech) ∧
    (fc !! tech = None → marginal_cost g = 0).
Proof.
  intros He.
  destruct (generator_A_ok fc eff tech p) as (g & Hg & _ & _ & Heff & Hmc).
  { rewrite He. cbn. lra. }
  exists g. rewrite He in Heff, Hmc. cbn in Heff, Hmc.
  split; [exact Hg |]. split; [exact Heff |].
  assert (Hmc' : marginal_cost g = default 0 (fc !! tech)) by (rewrite Hmc; field).
  split; [exact Hmc' |]. intros Hf. now rewrite Hmc', Hf.
Qed.

Lemma generator_A_unlisted_witness :
  ∃ g, generator_A fuel_cost efficiency_table ("nuclear"%string, 1000) = Ok g ∧
    efficiency g = 1 ∧
    marginal_cost g = default 0 (fuel_cost !! "nuclear"%string) ∧
    (fuel_cost !! "nuclear"%string = None → marginal_cost g = 0).
Proof. apply generator_A_unlisted. reflexivity. Defined.

End Generators.
